(** * ANLP-Mailsense: the e-mail classification pipeline

    A shallow embedding of [mail_classifier.py] (class [EmailClassifier]) and
    of the request handler of [interface.py], with the properties of the
    pipeline that the specification states.

    Conventions of the embedding:
    - a Python [str] is the list of its Unicode code points ([pystr]);
    - a numpy [float64] is a primitive binary64 float ([PrimFloat.float]),
      a numpy matrix the list of its rows;
    - an exception is a value of [exn]; a call that may raise returns in
      [result], and the methods run in the state-and-exception monad [M]:
      the state is the instance under construction for [__init__], and the
      log of the calls made on the pickled estimators for [classify];
    - everything that is not code of the repository (the Python built-ins,
      NLTK, pickle and the pickled scikit-learn objects, the file system) is
      a field of the record [Env]. *)

From Stdlib Require Import ZArith NArith List String Ascii Bool Lia.
From Stdlib Require Import Floats.
From stdpp Require Import base option list gmap.

Local Open Scope Z_scope.

(** * Part I: the model *)

(** ** Python values *)

(** A [str]: the sequence of its code points. *)
Definition pystr := list N.

Definition pystr_of (s : string) : pystr :=
  map N_of_ascii (list_ascii_of_string s).

(** The values an untyped argument may hold; [PyStr] is the only one for
    which [isinstance(v, str)] holds. *)
Inductive py_value :=
| PyStr (s : pystr)
| PyNone
| PyBool (b : bool)
| PyInt (n : Z)
| PyFloat (x : float)
| PyBytes (b : string)
| PyList (l : list pystr).

Definition isinstance_str (v : py_value) : bool :=
  match v with
  | PyStr _ => true
  | _ => false
  end.

(** ** Exceptions *)

Inductive exn_class :=
| FileNotFoundError
| PermissionError
| UnpicklingError
| LookupError
| AttributeError
| TypeError
| IndexError
| ValueError
| RuntimeError.

#[global] Instance exn_class_eq_dec : EqDecision exn_class.
Proof. solve_decision. Defined.

(** An exception object: its class, its [filename] attribute (set by the
    operating-system errors of [open]) and [str(e)]. *)
Record exn := Exn {
  exn_cls : exn_class;
  exn_filename : option string;
  exn_str : string
}.

Inductive result (A : Type) :=
| Ok (a : A)
| Raise (e : exn).
Arguments Ok {A} a.
Arguments Raise {A} e.

(** ** The monad of code that raises and has a state

    The state survives an exception, as the attributes of an object and the
    calls already made do in Python. *)

Definition M (St A : Type) : Type := St -> result A * St.

Definition ret {St A} (a : A) : M St A := fun s => (Ok a, s).

Definition raise {St A} (e : exn) : M St A := fun s => (Raise e, s).

Definition bind {St A B} (m : M St A) (k : A -> M St B) : M St B :=
  fun s =>
    match m s with
    | (Ok a, s') => k a s'
    | (Raise e, s') => (Raise e, s')
    end.

Definition lift {St A} (r : result A) : M St A := fun s => (r, s).

Definition get {St} : M St St := fun s => (Ok s, s).

Definition modify {St} (f : St -> St) : M St unit := fun s => (Ok tt, f s).

(** [try: body except cls as e: handler(e)]: an exception of another class
    passes through. *)
Definition try_except {St A} (body : M St A) (cls : exn_class)
    (handler : exn -> M St A) : M St A :=
  fun s =>
    match body s with
    | (Ok a, s') => (Ok a, s')
    | (Raise e, s') =>
        if decide (exn_cls e = cls) then handler e s' else (Raise e, s')
    end.

Declare Scope py_scope.
Delimit Scope py_scope with py.
Notation "x <- m ;; k" := (bind m (fun x => k))
  (at level 100, m at next level, right associativity) : py_scope.
Local Open Scope py_scope.

Fixpoint mapM {St A B} (f : A -> M St B) (l : list A) : M St (list B) :=
  match l with
  | [] => ret []
  | x :: l' => y <- f x ;; ys <- mapM f l' ;; ret (y :: ys)
  end.

Fixpoint filterM {St A} (f : A -> M St bool) (l : list A) : M St (list A) :=
  match l with
  | [] => ret []
  | x :: l' =>
      b <- f x ;; ys <- filterM f l' ;; ret (if b then x :: ys else ys)
  end.

Fixpoint foldM {St A B} (f : A -> B -> M St A) (a : A) (l : list B)
    : M St A :=
  match l with
  | [] => ret a
  | x :: l' => a' <- f a x ;; foldM f a' l'
  end.

(** ** What the program runs on *)

Inductive file_state :=
| Absent
| Denied
| Content (data : string).

(** Everything outside the repository.  [Obj] is the type of the objects
    that pickle yields and that the estimators exchange (vectorizers,
    models, feature matrices); a method called on an object that has none
    raises, so the methods are total functions into [result]. *)
Record Env := {
  Obj : Type;
  (** [str.lower] *)
  str_lower : pystr -> pystr;
  (** the class [\s] of [re] on a [str] pattern *)
  re_isspace : N -> bool;
  (** [nltk.word_tokenize] *)
  word_tokenize : pystr -> result (list pystr);
  (** [stopwords.words("english")] *)
  stopwords_words : result (list pystr);
  (** [WordNetLemmatizer().lemmatize] *)
  lemmatize : pystr -> result pystr;
  (** the files under the working directory *)
  fs : string -> file_state;
  (** [pickle.load] on the content of a file *)
  pickle_load : string -> result Obj;
  (** [vec.transform(docs)] *)
  transform : Obj -> list (list pystr) -> result Obj;
  (** [clf.predict(X)], an array of labels *)
  predict : Obj -> Obj -> result (list Z);
  (** [clf.predict_proba(X)], a matrix with one row per sample *)
  predict_proba : Obj -> Obj -> result (list (list float))
}.

(** [os.path.join(a, b)] on POSIX. *)
Definition ends_with_slash (a : string) : bool :=
  match rev (list_ascii_of_string a) with
  | c :: _ => Ascii.eqb c "/"
  | [] => false
  end.

Definition starts_with_slash (b : string) : bool :=
  match b with
  | String c _ => Ascii.eqb c "/"
  | EmptyString => false
  end.

Definition os_path_join (a b : string) : string :=
  if starts_with_slash b then b
  else if String.eqb a "" then b
  else if ends_with_slash a then a ++ b
  else a ++ "/" ++ b.

(** [open(path, "rb")], read to the end. *)
Definition open_rb (E : Env) (path : string) : result string :=
  match fs E path with
  | Content data => Ok data
  | Absent =>
      Raise (Exn FileNotFoundError (Some path)
               ("[Errno 2] No such file or directory: '" ++ path ++ "'"))
  | Denied =>
      Raise (Exn PermissionError (Some path)
               ("[Errno 13] Permission denied: '" ++ path ++ "'"))
  end.

(** ** numpy on lists *)

Module F64.

Definition is_nan (x : float) : bool := PrimFloat.is_nan x.

(** [x >= y] *)
Definition geb (x y : float) : bool := PrimFloat.leb y x.

(** The outcomes of [SFcompare] that mean [<=] and [<], and the decoded
    NaN. *)
Definition cmp_le (c : option comparison) : bool :=
  match c with
  | Some Lt | Some Eq => true
  | _ => false
  end.

Definition cmp_lt (c : option comparison) : bool :=
  match c with
  | Some Lt => true
  | _ => false
  end.

Definition sf_nan (x : spec_float) : bool :=
  match x with
  | S754_nan => true
  | _ => false
  end.

End F64.

Module np.

(** [(m >= t).astype(int)] *)
Definition ge_astype_int (m : list (list float)) (t : float)
    : list (list Z) :=
  map (map (fun p => if F64.geb p t then 1 else 0)) m.

(** [m.sum(axis=1)] *)
Definition sum_axis1 (m : list (list Z)) : list Z :=
  map (fun row => fold_right Z.add 0 row) m.

(** [np.where(v == 0)[0]]: the indices of the zeros of [v], ascending
    ([i] is the index of the head of [v]). *)
Fixpoint where_eq0 (i : nat) (v : list Z) : list nat :=
  match v with
  | [] => []
  | x :: v' =>
      if x =? 0 then i :: where_eq0 (S i) v' else where_eq0 (S i) v'
  end.

(** [m[rows]]: the rows of [m] at the indices [rows].  (An index out of
    range raises; line 154 takes its indices from [np.where] on a matrix
    of the same shape, so that they are in range.) *)
Definition take_rows {St A} (m : list (list A)) (rows : list nat)
    : M St (list (list A)) :=
  mapM (fun r =>
          match m !! r with
          | Some row => ret row
          | None => raise (Exn IndexError None "index out of bounds")
          end) rows.

(** The scan of numpy's [argmax] over a row of floats: [mp] is the largest
    value so far, [best] its index, [i] the index of the head of the rest.
    A NaN is taken as maximal and ends the scan; a later value replaces
    [mp] only when it is not [<= mp], so the first occurrence of the
    maximum wins. *)
Fixpoint argmax_scan (mp : float) (best i : nat) (l : list float) : nat :=
  match l with
  | [] => best
  | x :: l' =>
      if negb (PrimFloat.leb x mp) then
        if F64.is_nan x then i else argmax_scan x i (S i) l'
      else argmax_scan mp best (S i) l'
  end.

Definition argmax_idx (row : list float) : nat :=
  match row with
  | [] => 0%nat
  | x :: l => if F64.is_nan x then 0%nat else argmax_scan x 0 1 l
  end.

Definition argmax_row {St} (row : list float) : M St nat :=
  match row with
  | [] =>
      raise (Exn ValueError None "attempt to get argmax of an empty sequence")
  | _ => ret (argmax_idx row)
  end.

(** [np.argmax(m, axis=1)] *)
Definition argmax_axis1 {St} (m : list (list float)) : M St (list nat) :=
  mapM argmax_row m.

(** [a[0]] on an array; it fails on an array of size 0 only. *)
Definition getitem0 {St A} (a : list A) : M St A :=
  match a !! 0%nat with
  | Some x => ret x
  | None =>
      raise (Exn IndexError None
               "index 0 is out of bounds for axis 0 with size 0")
  end.

(** [m[r, c] = v].  (An index out of range raises; line 156 takes [r]
    and [c] from [np.where] and [np.argmax] on matrices of the same
    shape.) *)
Definition setitem2 {St} (m : list (list Z)) (r c : nat) (v : Z)
    : M St (list (list Z)) :=
  match m !! r with
  | Some row =>
      if decide (c < length row)%nat then ret (<[r := <[c := v]> row]> m)
      else raise (Exn IndexError None "index out of bounds")
  | None => raise (Exn IndexError None "index out of bounds")
  end.

End np.

(** ** [mail_classifier.py]: class [EmailClassifier] *)

(** The calls on the four pickled estimators, by the attribute of [self]
    through which they are made. *)
Inductive event :=
| SpamVecTransform (docs : list (list pystr))
| SpamClfPredict
| MlVecTransform (docs : list (list pystr))
| MlClfPredictProba.

(** The events of the topic stage. *)
Definition is_topic_event (ev : event) : bool :=
  match ev with
  | MlVecTransform _ | MlClfPredictProba => true
  | _ => false
  end.

(** The dictionary that [classify] returns. *)
Record ClassificationResult := {
  primary_classification : string;
  detailed_labels : list string
}.

Module EmailClassifier.

Definition MULTILABEL_CLASSES : list string := [
  "Business";
  "Reminders";
  "Events & Invitations";
  "Finance & Bills";
  "Travel & Bookings";
  "Customer Support";
  "Newsletters";
  "Personal";
  "Job Application";
  "Promotions"
]%string.

#[local] Set Warnings "-inexact-float".
Definition THRESHOLD : float := 0.30%float.
#[local] Set Warnings "inexact-float".

(** The file names of [_load_pipeline_assets], in the order it opens
    them. *)
Definition ARTIFACTS : list string := [
  "spam_vectorizer.pkl";
  "spam_model.pkl";
  "multilabel_vectorizer.pkl";
  "multilabel_model.pkl"
]%string.

Section WithEnv.

Variable E : Env.

(** The attributes of an instance; an attribute is [None] until it is
    assigned.  ([self.lemmatizer] is a [WordNetLemmatizer()], which holds
    no data: [lemmatize E] is its method.) *)
Record instance := {
  model_dir : option string;
  lemmatizer : option unit;
  stop_words : option (gset pystr);
  spam_vec : option (Obj E);
  spam_clf : option (Obj E);
  ml_vec : option (Obj E);
  ml_clf : option (Obj E)
}.

Definition blank : instance :=
  {| model_dir := None; lemmatizer := None; stop_words := None;
     spam_vec := None; spam_clf := None; ml_vec := None; ml_clf := None |}.

Definition set_model_dir (v : string) (self : instance) : instance :=
  {| model_dir := Some v; lemmatizer := lemmatizer self;
     stop_words := stop_words self; spam_vec := spam_vec self;
     spam_clf := spam_clf self;
     ml_vec := ml_vec self; ml_clf := ml_clf self |}.

Definition set_lemmatizer (v : unit) (self : instance) : instance :=
  {| model_dir := model_dir self; lemmatizer := Some v;
     stop_words := stop_words self; spam_vec := spam_vec self;
     spam_clf := spam_clf self;
     ml_vec := ml_vec self; ml_clf := ml_clf self |}.

Definition set_stop_words (v : gset pystr) (self : instance) : instance :=
  {| model_dir := model_dir self; lemmatizer := lemmatizer self;
     stop_words := Some v; spam_vec := spam_vec self;
     spam_clf := spam_clf self;
     ml_vec := ml_vec self; ml_clf := ml_clf self |}.

Definition set_spam_vec (v : Obj E) (self : instance) : instance :=
  {| model_dir := model_dir self; lemmatizer := lemmatizer self;
     stop_words := stop_words self; spam_vec := Some v;
     spam_clf := spam_clf self;
     ml_vec := ml_vec self; ml_clf := ml_clf self |}.

Definition set_spam_clf (v : Obj E) (self : instance) : instance :=
  {| model_dir := model_dir self; lemmatizer := lemmatizer self;
     stop_words := stop_words self; spam_vec := spam_vec self;
     spam_clf := Some v;
     ml_vec := ml_vec self; ml_clf := ml_clf self |}.

Definition set_ml_vec (v : Obj E) (self : instance) : instance :=
  {| model_dir := model_dir self; lemmatizer := lemmatizer self;
     stop_words := stop_words self; spam_vec := spam_vec self;
     spam_clf := spam_clf self;
     ml_vec := Some v; ml_clf := ml_clf self |}.

Definition set_ml_clf (v : Obj E) (self : instance) : instance :=
  {| model_dir := model_dir self; lemmatizer := lemmatizer self;
     stop_words := stop_words self; spam_vec := spam_vec self;
     spam_clf := spam_clf self;
     ml_vec := ml_vec self; ml_clf := Some v |}.

(** [self.name], read. *)
Definition getattr {St A} (name : string) (o : option A) : M St A :=
  match o with
  | Some a => ret a
  | None =>
      raise (Exn AttributeError None
               ("'EmailClassifier' object has no attribute '" ++ name ++ "'"))
  end.

(** [with open(os.path.join(self.model_dir, name), "rb") as f:
       pickle.load(f)] *)
Definition load_pickle (name : string) : M instance (Obj E) :=
  self <- get ;;
  dir <- getattr "model_dir" (model_dir self) ;;
  f <- lift (open_rb E (os_path_join dir name)) ;;
  lift (pickle_load E f).

Definition asset_not_found (e : exn) : exn :=
  Exn FileNotFoundError None
    ("Required model asset not found: "
       ++ match exn_filename e with Some f => f | None => "None" end
       ++ ". "
       ++ "Ensure your model_assets directory exists and contains all four .pkl files.").

Definition _load_pipeline_assets : M instance unit :=
  try_except
    (v <- load_pickle "spam_vectorizer.pkl" ;;
     _ <- modify (set_spam_vec v) ;;
     v <- load_pickle "spam_model.pkl" ;;
     _ <- modify (set_spam_clf v) ;;
     v <- load_pickle "multilabel_vectorizer.pkl" ;;
     _ <- modify (set_ml_vec v) ;;
     v <- load_pickle "multilabel_model.pkl" ;;
     modify (set_ml_clf v))
    FileNotFoundError
    (fun e => raise (asset_not_found e)).

(** The downloads of NLTK data at the head of [__init__] are inside a
    [try] that swallows every exception and assign nothing: they are left
    out. *)
Definition __init__ (model_dir : string) : M instance unit :=
  _ <- modify (set_model_dir model_dir) ;;
  _ <- modify (set_lemmatizer tt) ;;
  words <- lift (stopwords_words E) ;;
  _ <- modify (set_stop_words (list_to_set words)) ;;
  _load_pipeline_assets.

(** [EmailClassifier(model_dir)]: the instance is returned only when
    [__init__] returns. *)
Definition new (model_dir : string) : result instance :=
  match __init__ model_dir blank with
  | (Ok _, self) => Ok self
  | (Raise e, _) => Raise e
  end.

(** [re.sub(r"[^a-z0-9\s]", " ", text)] *)
Definition is_az (c : N) : bool := ((97 <=? c) && (c <=? 122))%N.

Definition is_09 (c : N) : bool := ((48 <=? c) && (c <=? 57))%N.

Definition keeps (c : N) : bool := is_az c || is_09 c || re_isspace E c.

Definition re_sub_other_space (text : pystr) : pystr :=
  map (fun c => if keeps c then c else 32%N) text.

(** The condition of line 114. *)
Definition kept (sw : gset pystr) (t : pystr) : Prop :=
  (t ∉ sw) ∧ (2 < length t)%nat.

#[global] Instance kept_dec sw t : Decision (kept sw t).
Proof. unfold kept. apply _. Defined.

Definition _preprocess_email {St} (self : instance) (text : py_value)
    : M St (list pystr) :=
  match text with
  | PyStr text =>
      let text := str_lower E text in
      let text := re_sub_other_space text in
      tokens <- lift (word_tokenize E text) ;;
      tokens <- filterM
                  (fun t =>
                     sw <- getattr "stop_words" (stop_words self) ;;
                     ret (bool_decide (kept sw t)))
                  tokens ;;
      lemmas <- mapM
                  (fun t =>
                     _ <- getattr "lemmatizer" (lemmatizer self) ;;
                     lift (lemmatize E t))
                  tokens ;;
      ret lemmas
  | _ => ret []
  end.

(** A call on an estimator: logged, then answered. *)
Definition call {A} (ev : event) (r : result A) : M (list event) A :=
  fun log => (r, log ++ [ev]).

(** [l[i]] on a Python list, [i] not negative. *)
Definition getitem {St A} (l : list A) (i : nat) : M St A :=
  match l !! i with
  | Some a => ret a
  | None => raise (Exn IndexError None "list index out of range")
  end.

(** Lines 149-156: a row with no label gets the label of its largest
    probability. *)
Definition ensure_one_label {St} (y_pred_proba : list (list float))
    (y_pred_bin_thresh : list (list Z)) : M St (list (list Z)) :=
  let row_sums := np.sum_axis1 y_pred_bin_thresh in
  let no_label_rows := np.where_eq0 0 row_sums in
  if decide (0 < length no_label_rows)%nat then
    rows <- np.take_rows y_pred_proba no_label_rows ;;
    top_indices <- np.argmax_axis1 rows ;;
    foldM (fun m rc => np.setitem2 m (fst rc) (snd rc) 1)
      y_pred_bin_thresh (zip no_label_rows top_indices)
  else ret y_pred_bin_thresh.

(** Lines 159-161:
    [[MULTILABEL_CLASSES[i] for i, val in enumerate(row) if val == 1]],
    [i] being the index of the head of [row]. *)
Fixpoint labels_of_row {St} (i : nat) (row : list Z) : M St (list string) :=
  match row with
  | [] => ret []
  | val :: row' =>
      if val =? 1 then
        label <- getitem MULTILABEL_CLASSES i ;;
        labels <- labels_of_row (S i) row' ;;
        ret (label :: labels)
      else labels_of_row (S i) row'
  end.

(** Lines 129-132: Stage 1, the label of the one sample. *)
Definition spam_stage (self : instance) (email_tokens : list pystr)
    : M (list event) Z :=
  vec <- getattr "spam_vec" (spam_vec self) ;;
  X_spam <- call (SpamVecTransform [email_tokens])
              (transform E vec [email_tokens]) ;;
  clf <- getattr "spam_clf" (spam_clf self) ;;
  predictions <- call SpamClfPredict (predict E clf X_spam) ;;
  np.getitem0 predictions.

(** Lines 140-143: Stage 2, the matrix of probabilities. *)
Definition topic_stage (self : instance) (email_tokens : list pystr)
    : M (list event) (list (list float)) :=
  vec <- getattr "ml_vec" (ml_vec self) ;;
  X_multilabel <- call (MlVecTransform [email_tokens])
                    (transform E vec [email_tokens]) ;;
  clf <- getattr "ml_clf" (ml_clf self) ;;
  call MlClfPredictProba (predict_proba E clf X_multilabel).

(** Lines 145-161: from the probabilities to the labels of the first
    sample. *)
Definition predicted_labels {St} (y_pred_proba : list (list float))
    : M St (list string) :=
  let y_pred_bin_thresh := np.ge_astype_int y_pred_proba THRESHOLD in
  y_pred_bin_thresh <- ensure_one_label y_pred_proba y_pred_bin_thresh ;;
  row <- np.getitem0 y_pred_bin_thresh ;;
  labels_of_row 0 row.

Definition classify (self : instance) (email_text : py_value)
    : M (list event) ClassificationResult :=
  email_tokens <- _preprocess_email self email_text ;;
  spam_prediction <- spam_stage self email_tokens ;;
  if spam_prediction =? 1 then
    ret {| primary_classification := "Spam"; detailed_labels := [] |}
  else
    y_pred_proba <- topic_stage self email_tokens ;;
    predicted_labels <- predicted_labels y_pred_proba ;;
    ret {| primary_classification := "No-Spam";
           detailed_labels := predicted_labels |}.

End WithEnv.

Arguments model_dir {E} _.
Arguments lemmatizer {E} _.
Arguments stop_words {E} _.
Arguments spam_vec {E} _.
Arguments spam_clf {E} _.
Arguments ml_vec {E} _.
Arguments ml_clf {E} _.

End EmailClassifier.

(** ** [interface.py] *)

Module interface.

Import EmailClassifier.

(** What the handler returns: the dictionary of [classify], the dictionary
    [{"error": msg}], or the pair of such a dictionary and a status. *)
Inductive returned :=
| Result (r : ClassificationResult)
| Error (msg : string)
| ErrorWithStatus (msg : string) (status : Z).

(** The status of a request that fails validation. *)
Definition HTTP_422_UNPROCESSABLE : Z := 422.

Definition is_server_error (status : Z) : bool :=
  (500 <=? status) && (status <=? 599).

Section WithEnv.

Variable E : Env.

(** Lines 15-22: the module-level [classifier].  An exception other than
    [FileNotFoundError] leaves the [try] and ends the import of the
    module. *)
Definition classifier : result (option (instance E)) :=
  match new E "model_assets" with
  | Ok c => Ok (Some c)
  | Raise e =>
      if decide (exn_cls e = FileNotFoundError) then Ok None else Raise e
  end.

(** The handler of [POST /classify]; [email_text] is [input.email_text],
    a [str] by the request schema. *)
Definition classify_email (classifier : option (instance E))
    (email_text : pystr) : list event -> returned * list event :=
  fun log =>
    match classifier with
    | None =>
        (ErrorWithStatus
           "Server failed to load machine learning assets on startup." 500,
         log)
    | Some c =>
        match classify E c (PyStr email_text) log with
        | (Ok result, log') => (Result result, log')
        | (Raise e, log') =>
            (Error ("An error occurred during classification: " ++ exn_str e),
             log')
        end
    end.

End WithEnv.

End interface.

(** ** Notions of the statements *)

(** [m] returns [r] and leaves the state as it was, whatever the state. *)
Definition pure_of {St A} (m : M St A) (r : result A) : Prop :=
  forall s, m s = (r, s).

(** [m] has an outcome that it returns in every state, leaving the state
    as it was. *)
Definition is_pure {St A} (m : M St A) : Prop := exists r, pure_of m r.

(** [m] returns [r] and adds the events [evs] to the log, whatever the
    log. *)
Definition appends {A} (m : M (list event) A) (r : result A)
    (evs : list event) : Prop :=
  forall log, m log = (r, log ++ evs).

(** [m] is deterministic in the log: its outcome and the events it adds
    do not depend on the calls made before. *)
Definition uniform {A} (m : M (list event) A) : Prop :=
  exists r evs, appends m r evs.

(** The outcome of opening and unpickling the artifact [name] of the
    directory [dir]. *)
Definition artifact (E : Env) (dir name : string) : result (Obj E) :=
  match open_rb E (os_path_join dir name) with
  | Ok data => pickle_load E data
  | Raise e => Raise e
  end.

(** What the [except] clause of [_load_pipeline_assets] makes of an
    exception of its [try] block. *)
Definition reraised (e : exn) : exn :=
  if decide (exn_cls e = FileNotFoundError)
  then EmailClassifier.asset_not_found e else e.


(** A row of probabilities after line 147. *)
Definition thresholded (row : list float) : list Z :=
  map (fun p => if F64.geb p EmailClassifier.THRESHOLD then 1 else 0) row.

(** The names whose probability reaches the threshold, in the order of
    [names]. *)
Fixpoint passing (names : list string) (row : list float) : list string :=
  match names, row with
  | name :: names', p :: row' =>
      if F64.geb p EmailClassifier.THRESHOLD
      then name :: passing names' row' else passing names' row'
  | _, _ => []
  end.

(** [c] is the first index of a largest element of [l]. *)
Definition first_max (l : list float) (c : nat) : Prop :=
  exists pc,
    l !! c = Some pc
    /\ (forall j pj, l !! j = Some pj -> (pj <=? pc)%float = true)
    /\ (forall j pj, (j < c)%nat -> l !! j = Some pj ->
          (pj <? pc)%float = true).

(** What claim C4 asks of a token. *)
Definition token_ok (E : Env) (sw : gset pystr) (t : pystr) : Prop :=
  str_lower E t = t /\ (2 < length t)%nat /\ t ∉ sw.

(** ** A small concrete environment

    ASCII text, a tokenizer that splits at white space, a stop-word list of
    a dozen words, a lemmatizer that detaches a final [s] when the rest is
    in its lexicon, four pickles, and estimators that look for a few key
    words.  The files are a parameter. *)

Module Demo.

Import EmailClassifier.

Inductive obj :=
| SpamVec
| SpamClf
| TopicVec
| TopicClf
| Features (tokens : list pystr).

Definition lower_char (c : N) : N :=
  if ((65 <=? c) && (c <=? 90))%N then (c + 32)%N else c.

Definition isspace (c : N) : bool :=
  (((9 <=? c) && (c <=? 13)) || (c =? 32))%N.

(** [cur] is the token being read, reversed. *)
Fixpoint split_ws (cur : pystr) (text : pystr) : list pystr :=
  match text with
  | [] => match cur with [] => [] | _ => [rev cur] end
  | c :: text' =>
      if isspace c then
        match cur with
        | [] => split_ws [] text'
        | _ => rev cur :: split_ws [] text'
        end
      else split_ws (c :: cur) text'
  end.

Definition stop_list : list pystr :=
  map pystr_of ["the"; "and"; "you"; "your"; "has"; "been"; "this"; "now";
                "can"; "will"; "for"; "are"]%string.

Definition lexicon : list pystr :=
  map pystr_of ["ad"; "can"; "invoice"; "meeting"; "ticket"]%string.

Definition detach_s (t : pystr) : pystr :=
  match rev t with
  | c :: r =>
      if (c =? 115)%N && bool_decide (rev r ∈ lexicon) then rev r else t
  | [] => t
  end.

Definition has (w : string) (tokens : list pystr) : bool :=
  bool_decide (pystr_of w ∈ tokens).

Definition no_method {A} (name : string) : result A :=
  Raise (Exn AttributeError None
           ("object has no attribute '" ++ name ++ "'")).

Definition unpickle (data : string) : result obj :=
  if String.eqb data "spam_vectorizer" then Ok SpamVec
  else if String.eqb data "spam_model" then Ok SpamClf
  else if String.eqb data "multilabel_vectorizer" then Ok TopicVec
  else if String.eqb data "multilabel_model" then Ok TopicClf
  else Raise (Exn UnpicklingError None "invalid load key, 'x'.").

Definition vec_transform (o : obj) (docs : list (list pystr)) : result obj :=
  match o with
  | SpamVec | TopicVec => Ok (Features (concat docs))
  | _ => no_method "transform"
  end.

Definition clf_predict (o X : obj) : result (list Z) :=
  match o, X with
  | SpamClf, Features toks =>
      Ok [if has "hacked" toks || has "lottery" toks then 1 else 0]
  | SpamClf, _ => Raise (Exn ValueError None "expected a feature matrix")
  | _, _ => no_method "predict"
  end.

(** Two categories above the threshold. *)
Definition row_invoice : list float :=
  [0.0625; 0.125; 0.5; 0.875; 0.0625; 0.125; 0.0625; 0.0625; 0.0625;
   0.0625]%float.

(** One category at the threshold, the others below. *)
Definition row_newsletter : list float :=
  [0.125; 0.125; 0.125; 0.125; 0.125; 0.125; THRESHOLD; 0.125; 0.125;
   0.125]%float.

(** All below the threshold; the largest, 0.25, at indices 1 and 3. *)
Definition row_other : list float :=
  [0.125; 0.25; 0.0625; 0.25; 0.125; 0.0625; 0.125; 0.1875; 0.0625;
   0.125]%float.

Definition clf_predict_proba (o X : obj) : result (list (list float)) :=
  match o, X with
  | TopicClf, Features toks =>
      Ok [if has "invoice" toks then row_invoice
          else if has "newsletter" toks then row_newsletter
          else row_other]
  | TopicClf, _ => Raise (Exn ValueError None "expected a feature matrix")
  | _, _ => no_method "predict_proba"
  end.

Definition env (files : string -> file_state) : Env :=
  {| Obj := obj;
     str_lower := map lower_char;
     re_isspace := isspace;
     word_tokenize := fun text => Ok (split_ws [] text);
     stopwords_words := Ok stop_list;
     lemmatize := fun t => Ok (detach_s t);
     fs := files;
     pickle_load := unpickle;
     transform := vec_transform;
     predict := clf_predict;
     predict_proba := clf_predict_proba |}.

(** The four artifacts in place. *)
Definition all_files (path : string) : file_state :=
  if String.eqb path "model_assets/spam_vectorizer.pkl"
  then Content "spam_vectorizer"
  else if String.eqb path "model_assets/spam_model.pkl"
  then Content "spam_model"
  else if String.eqb path "model_assets/multilabel_vectorizer.pkl"
  then Content "multilabel_vectorizer"
  else if String.eqb path "model_assets/multilabel_model.pkl"
  then Content "multilabel_model"
  else Absent.

(** [files] with the file at [path] in state [st]. *)
Definition with_file (path : string) (st : file_state)
    (files : string -> file_state) : string -> file_state :=
  fun p => if String.eqb p path then st else files p.

(** [spam_model.pkl] is not there. *)
Definition missing_files : string -> file_state :=
  with_file "model_assets/spam_model.pkl" Absent all_files.

(** [spam_vectorizer.pkl] is there and is no pickle: its first byte, [x],
    is no opcode, which is what the message of [unpickle] says. *)
Definition corrupt_files : string -> file_state :=
  with_file "model_assets/spam_vectorizer.pkl" (Content "xxxx") all_files.

(** The instance that [new] builds from [all_files]. *)
Definition loaded : instance (env all_files) :=
  Build_instance (env all_files)
    (Some "model_assets"%string) (Some tt) (Some (list_to_set stop_list))
    (Some SpamVec) (Some SpamClf) (Some TopicVec) (Some TopicClf).

End Demo.

(** Variants of the small environment in which something is out of
    order. *)
Module DemoFaults.

(** [multilabel_model.pkl] is there and may not be read. *)
Definition denied_files : string -> file_state :=
  Demo.with_file "model_assets/multilabel_model.pkl" Denied Demo.all_files.

Definition resource_not_found (name : string) : exn :=
  Exn LookupError None ("Resource " ++ name ++ " not found.").

(** The four artifacts in place, the stop words of NLTK not installed. *)
Definition env_without_stopwords : Env :=
  {| Obj := Demo.obj;
     str_lower := map Demo.lower_char;
     re_isspace := Demo.isspace;
     word_tokenize := fun text => Ok (Demo.split_ws [] text);
     stopwords_words := Raise (resource_not_found "stopwords");
     lemmatize := fun t => Ok (Demo.detach_s t);
     fs := Demo.all_files;
     pickle_load := Demo.unpickle;
     transform := Demo.vec_transform;
     predict := Demo.clf_predict;
     predict_proba := Demo.clf_predict_proba |}.

(** The four artifacts in place, the tokenizer data of NLTK not
    installed. *)
Definition env_without_tokenizer : Env :=
  {| Obj := Demo.obj;
     str_lower := map Demo.lower_char;
     re_isspace := Demo.isspace;
     word_tokenize := fun _ => Raise (resource_not_found "punkt");
     stopwords_words := Ok Demo.stop_list;
     lemmatize := fun t => Ok (Demo.detach_s t);
     fs := Demo.all_files;
     pickle_load := Demo.unpickle;
     transform := Demo.vec_transform;
     predict := Demo.clf_predict;
     predict_proba := Demo.clf_predict_proba |}.

(** The instance that [new] builds in [env_without_tokenizer]. *)
Definition loaded_without_tokenizer
    : EmailClassifier.instance env_without_tokenizer :=
  EmailClassifier.Build_instance env_without_tokenizer
    (Some "model_assets"%string) (Some tt)
    (Some (list_to_set Demo.stop_list))
    (Some Demo.SpamVec) (Some Demo.SpamClf)
    (Some Demo.TopicVec) (Some Demo.TopicClf).

End DemoFaults.

(** * Part II: properties *)

Import EmailClassifier.
Local Open Scope py_scope.

(** ** binary64 comparison

    [x <= y] on [float64] is [PrimFloat.leb]; [FloatAxioms.leb_spec] reduces
    it to the comparison [SFcompare] of the decoded values.  Away from NaN
    that comparison is a total preorder, which is what the scan of [argmax]
    relies on. *)

Section Float64.

Lemma SFleb_cmp x y : SFleb x y = F64.cmp_le (SFcompare x y).
Proof. reflexivity. Qed.

Lemma SFltb_cmp x y : SFltb x y = F64.cmp_lt (SFcompare x y).
Proof. reflexivity. Qed.

Ltac sf_cases :=
  repeat match goal with
  | s : bool |- _ => destruct s
  end;
  cbn;
  change (Pos.compare_cont Eq) with Pos.compare;
  repeat match goal with
  | |- context [Z.compare ?a ?b] => destruct (Z.compare_spec a b); cbn
  | |- context [Pos.compare ?a ?b] => destruct (Pos.compare_spec a b); cbn
  end;
  try (intros; first [ reflexivity | discriminate | lia ]).

Lemma sf_compare_refl x : F64.sf_nan x = false -> SFcompare x x = Some Eq.
Proof.
  destruct x as [s|s| |s m e]; cbn; try discriminate; intros _;
    destruct s; try reflexivity;
    rewrite Z.compare_refl;
    change (Pos.compare_cont Eq m m) with (Pos.compare m m);
    rewrite Pos.compare_refl; reflexivity.
Qed.

Lemma sf_le_trans x y z :
  F64.cmp_le (SFcompare x y) = true -> F64.cmp_le (SFcompare y z) = true ->
  F64.cmp_le (SFcompare x z) = true.
Proof.
  destruct x as [sx|sx| |sx mx ex], y as [sy|sy| |sy my ey],
    z as [sz|sz| |sz mz ez]; sf_cases.
Qed.

Lemma sf_le_lt_trans x y z :
  F64.cmp_le (SFcompare x y) = true -> F64.cmp_lt (SFcompare y z) = true ->
  F64.cmp_lt (SFcompare x z) = true.
Proof.
  destruct x as [sx|sx| |sx mx ex], y as [sy|sy| |sy my ey],
    z as [sz|sz| |sz mz ez]; sf_cases.
Qed.

Lemma sf_not_le_lt x y :
  F64.sf_nan x = false -> F64.sf_nan y = false ->
  F64.cmp_le (SFcompare x y) = false -> F64.cmp_lt (SFcompare y x) = true.
Proof.
  destruct x as [sx|sx| |sx mx ex], y as [sy|sy| |sy my ey]; sf_cases.
Qed.

Lemma sf_lt_le x y :
  F64.cmp_lt (SFcompare x y) = true -> F64.cmp_le (SFcompare x y) = true.
Proof. destruct (SFcompare x y) as [[]|]; cbn; congruence. Qed.

(** The same facts on [float]. *)

Lemma f64_is_nan_spec x : F64.is_nan x = F64.sf_nan (Prim2SF x).
Proof.
  unfold F64.is_nan, PrimFloat.is_nan. rewrite FloatAxioms.eqb_spec.
  unfold SFeqb.
  destruct (F64.sf_nan (Prim2SF x)) eqn:E.
  - destruct (Prim2SF x); try discriminate. reflexivity.
  - rewrite (sf_compare_refl _ E). reflexivity.
Qed.

Lemma f64_leb_refl x : F64.is_nan x = false -> (x <=? x)%float = true.
Proof.
  rewrite f64_is_nan_spec, leb_spec, SFleb_cmp. intros E.
  rewrite (sf_compare_refl _ E). reflexivity.
Qed.

Lemma f64_leb_trans x y z :
  (x <=? y)%float = true -> (y <=? z)%float = true -> (x <=? z)%float = true.
Proof. rewrite !leb_spec, !SFleb_cmp. apply sf_le_trans. Qed.

Lemma f64_leb_ltb_trans x y z :
  (x <=? y)%float = true -> (y <? z)%float = true -> (x <? z)%float = true.
Proof.
  rewrite !leb_spec, !ltb_spec, !SFleb_cmp, !SFltb_cmp. apply sf_le_lt_trans.
Qed.

Lemma f64_not_leb_ltb x y :
  F64.is_nan x = false -> F64.is_nan y = false ->
  (x <=? y)%float = false -> (y <? x)%float = true.
Proof.
  rewrite !f64_is_nan_spec, leb_spec, ltb_spec, SFleb_cmp, SFltb_cmp.
  apply sf_not_le_lt.
Qed.

Lemma f64_ltb_leb x y : (x <? y)%float = true -> (x <=? y)%float = true.
Proof. rewrite leb_spec, ltb_spec, SFleb_cmp, SFltb_cmp. apply sf_lt_le. Qed.

End Float64.

(** ** The monad *)

Section MonadFacts.

Context {St : Type}.

Lemma bind_Ok {A B} (m : M St A) (k : A -> M St B) s b s' :
  bind m k s = (Ok b, s') <->
  exists a s1, m s = (Ok a, s1) /\ k a s1 = (Ok b, s').
Proof.
  unfold bind. split.
  - destruct (m s) as [[a|e] s1]; [eauto | discriminate].
  - intros (a & s1 & -> & H). exact H.
Qed.

Lemma bind_run_Ok {A B} (m : M St A) (k : A -> M St B) s a s1 :
  m s = (Ok a, s1) -> bind m k s = k a s1.
Proof. unfold bind. intros ->. reflexivity. Qed.

Lemma pure_ret {A} (a : A) : pure_of (St := St) (ret a) (Ok a).
Proof. intros s. reflexivity. Qed.

Lemma pure_raise {A} e : pure_of (St := St) (A := A) (raise e) (Raise e).
Proof. intros s. reflexivity. Qed.

Lemma pure_lift {A} (r : result A) : pure_of (St := St) (lift r) r.
Proof. intros s. reflexivity. Qed.

Lemma pure_bind_Ok {A B} (m : M St A) (k : A -> M St B) a r :
  pure_of m (Ok a) -> pure_of (k a) r -> pure_of (bind m k) r.
Proof. intros Hm Hk s. unfold bind. rewrite Hm. apply Hk. Qed.

Lemma pure_bind_Raise {A B} (m : M St A) (k : A -> M St B) e :
  pure_of m (Raise e) -> pure_of (bind m k) (Raise e).
Proof. intros Hm s. unfold bind. rewrite Hm. reflexivity. Qed.

Lemma is_pure_ret {A} (a : A) : is_pure (St := St) (ret a).
Proof. eexists. apply pure_ret. Qed.

Lemma is_pure_raise {A} e : is_pure (St := St) (A := A) (raise e).
Proof. eexists. apply pure_raise. Qed.

Lemma is_pure_lift {A} (r : result A) : is_pure (St := St) (lift r).
Proof. eexists. apply pure_lift. Qed.

Lemma is_pure_bind {A B} (m : M St A) (k : A -> M St B) :
  is_pure m -> (forall a, is_pure (k a)) -> is_pure (bind m k).
Proof.
  intros [[a|e] Hm] Hk.
  - destruct (Hk a) as [r Hr]. exists r. eapply pure_bind_Ok; eauto.
  - exists (Raise e). apply pure_bind_Raise, Hm.
Qed.

Lemma is_pure_mapM {A B} (f : A -> M St B) l :
  (forall x, is_pure (f x)) -> is_pure (mapM f l).
Proof.
  intros Hf. induction l as [|x l IH]; cbn.
  - apply is_pure_ret.
  - apply is_pure_bind; [apply Hf|]. intros y.
    apply is_pure_bind; [apply IH|]. intros ys. apply is_pure_ret.
Qed.

Lemma is_pure_filterM {A} (f : A -> M St bool) l :
  (forall x, is_pure (f x)) -> is_pure (filterM f l).
Proof.
  intros Hf. induction l as [|x l IH]; cbn.
  - apply is_pure_ret.
  - apply is_pure_bind; [apply Hf|]. intros b.
    apply is_pure_bind; [apply IH|]. intros ys. apply is_pure_ret.
Qed.

Lemma is_pure_foldM {A B} (f : A -> B -> M St A) l a :
  (forall a x, is_pure (f a x)) -> is_pure (foldM f a l).
Proof.
  intros Hf. revert a. induction l as [|x l IH]; intros a; cbn.
  - apply is_pure_ret.
  - apply is_pure_bind; [apply Hf|]. intros a'. apply IH.
Qed.

Lemma is_pure_state {A} (m : M St A) s r s' :
  is_pure m -> m s = (r, s') -> s' = s /\ pure_of m r.
Proof.
  intros [r0 H] Hs. rewrite H in Hs. injection Hs as <- <-. auto.
Qed.

End MonadFacts.

Ltac pure_step :=
  first
    [ apply is_pure_ret | apply is_pure_raise | apply is_pure_lift
    | apply is_pure_bind; [| intros ?]
    | apply is_pure_mapM; intros ?
    | apply is_pure_filterM; intros ?
    | apply is_pure_foldM; intros ? ?
    | match goal with
      | |- is_pure (match ?x with _ => _ end) => destruct x
      | |- is_pure (if ?b then _ else _) => destruct b
      end ].

Create HintDb pure.

Ltac solve_pure :=
  repeat (cbv beta zeta; pure_step); cbv beta zeta; auto with pure.

(** ** What is pure in the pipeline *)

Section Purity.

Context {St : Type} (E : Env).

Lemma is_pure_getattr {A} name (o : option A) :
  is_pure (St := St) (getattr name o).
Proof. unfold getattr. solve_pure. Qed.
Hint Resolve is_pure_getattr : pure.

Lemma is_pure_getitem {A} (l : list A) i : is_pure (St := St) (getitem l i).
Proof. unfold getitem. solve_pure. Qed.
Hint Resolve is_pure_getitem : pure.

Lemma is_pure_take_rows {A} (m : list (list A)) rows :
  is_pure (St := St) (np.take_rows m rows).
Proof. unfold np.take_rows. solve_pure. Qed.
Hint Resolve is_pure_take_rows : pure.

Lemma is_pure_argmax_row row : is_pure (St := St) (np.argmax_row row).
Proof. unfold np.argmax_row. solve_pure. Qed.
Hint Resolve is_pure_argmax_row : pure.

Lemma is_pure_argmax_axis1 m : is_pure (St := St) (np.argmax_axis1 m).
Proof. unfold np.argmax_axis1. solve_pure. Qed.
Hint Resolve is_pure_argmax_axis1 : pure.

Lemma is_pure_getitem0 {A} (a : list A) :
  is_pure (St := St) (np.getitem0 a).
Proof. unfold np.getitem0. solve_pure. Qed.
Hint Resolve is_pure_getitem0 : pure.

Lemma is_pure_setitem2 m r c v : is_pure (St := St) (np.setitem2 m r c v).
Proof. unfold np.setitem2. solve_pure. Qed.
Hint Resolve is_pure_setitem2 : pure.

Lemma is_pure_ensure_one_label P B :
  is_pure (St := St) (ensure_one_label P B).
Proof.
  unfold ensure_one_label. solve_pure.
Qed.
Hint Resolve is_pure_ensure_one_label : pure.

Lemma is_pure_labels_of_row row i : is_pure (St := St) (labels_of_row i row).
Proof.
  revert i. induction row as [|v row IH]; intros i; cbn; solve_pure.
Qed.
Hint Resolve is_pure_labels_of_row : pure.

Lemma is_pure_predicted_labels P : is_pure (St := St) (predicted_labels P).
Proof.
  unfold predicted_labels. solve_pure.
Qed.
Hint Resolve is_pure_predicted_labels : pure.

Lemma is_pure_preprocess self text :
  is_pure (St := St) (_preprocess_email E self text).
Proof.
  unfold _preprocess_email. destruct text; solve_pure.
Qed.

End Purity.

#[local] Hint Resolve is_pure_getattr is_pure_getitem is_pure_getitem0
  is_pure_take_rows
  is_pure_argmax_row is_pure_argmax_axis1 is_pure_setitem2
  is_pure_ensure_one_label is_pure_labels_of_row is_pure_predicted_labels
  is_pure_preprocess : pure.

(** ** The log of calls *)

Section Log.

Variable E : Env.

Lemma uniform_pure {A} (m : M (list event) A) : is_pure m -> uniform m.
Proof.
  intros [r H]. exists r, []. intros log. rewrite app_nil_r. apply H.
Qed.

Lemma uniform_call {A} ev (r : result A) : uniform (call ev r).
Proof. exists r, [ev]. intros log. reflexivity. Qed.

Lemma uniform_bind {A B} (m : M (list event) A) (k : A -> M (list event) B) :
  uniform m -> (forall a, uniform (k a)) -> uniform (bind m k).
Proof.
  intros ([a|e] & evs & Hm) Hk.
  - destruct (Hk a) as (r & evs' & Hr). exists r, (evs ++ evs').
    intros log. unfold bind. rewrite Hm, Hr, app_assoc. reflexivity.
  - exists (Raise e), evs. intros log. unfold bind. rewrite Hm. reflexivity.
Qed.

Ltac uniform_step :=
  first
    [ apply uniform_call
    | apply uniform_bind; [| intros ?]
    | apply uniform_pure; solve [auto with pure | solve_pure]
    | match goal with
      | |- uniform (if ?b then _ else _) => destruct b
      end ].

Lemma uniform_spam_stage self toks : uniform (spam_stage E self toks).
Proof. unfold spam_stage. repeat uniform_step. Qed.

Lemma uniform_topic_stage self toks : uniform (topic_stage E self toks).
Proof. unfold topic_stage. repeat uniform_step. Qed.

Lemma uniform_classify self text : uniform (classify E self text).
Proof.
  unfold classify.
  apply uniform_bind; [apply uniform_pure; auto with pure | intros toks].
  apply uniform_bind; [apply uniform_spam_stage | intros z].
  destruct (z =? 1); [apply uniform_pure, is_pure_ret|].
  apply uniform_bind; [apply uniform_topic_stage | intros P].
  apply uniform_bind; [apply uniform_pure; auto with pure | intros ls].
  apply uniform_pure, is_pure_ret.
Qed.

(** The events of a spam stage that returns. *)
Lemma spam_stage_Ok self toks log z log' :
  spam_stage E self toks log = (Ok z, log') ->
  log' = log ++ [SpamVecTransform [toks]; SpamClfPredict].
Proof.
  unfold spam_stage, bind, getattr, call, np.getitem0, ret, raise.
  destruct (spam_vec self); [|discriminate].
  destruct (transform E _ _); [|discriminate].
  destruct (spam_clf self); [|discriminate].
  destruct (predict E _ _) as [preds|]; [|discriminate].
  destruct (preds !! 0%nat); [|discriminate].
  intros [= _ <-]. rewrite <- app_assoc. reflexivity.
Qed.

End Log.

(** ** The pipeline *)

(** C7. When the spam stage answers 1 (Spam), [classify] returns
    [{"Spam", []}] at once: the only calls it has made on the estimators
    are the two of the spam stage, and none of the topic stage. *)
Theorem classify_spam_short_circuit (E : Env) (self : instance E)
    (text : py_value) (log : list event) (toks : list pystr) :
  fst (_preprocess_email E self text log) = Ok toks ->
  fst (spam_stage E self toks log) = Ok 1 ->
  let evs := [SpamVecTransform [toks]; SpamClfPredict] in
  classify E self text log
  = (Ok {| primary_classification := "Spam"; detailed_labels := [] |},
     log ++ evs)
  /\ existsb is_topic_event evs = false.
Proof.
  intros Hp Hs evs. split; [|reflexivity].
  destruct (_preprocess_email E self text log) as [r log0] eqn:Hpre.
  cbn in Hp. subst r.
  destruct (is_pure_state _ _ _ _ (is_pure_preprocess E self text) Hpre)
    as [-> _].
  destruct (spam_stage E self toks log) as [r log1] eqn:Hspam.
  cbn in Hs. subst r.
  pose proof (spam_stage_Ok E _ _ _ _ _ Hspam) as ->.
  unfold classify.
  rewrite (bind_run_Ok _ _ _ _ _ Hpre), (bind_run_Ok _ _ _ _ _ Hspam).
  reflexivity.
Qed.

(** C5. For an input that is not a [str], [_preprocess_email] returns the
    empty list of tokens; it raises nothing and calls nothing. *)
Theorem preprocess_non_string (E : Env) (St : Type) (self : instance E)
    (text : py_value) (s : St) :
  isinstance_str text = false ->
  _preprocess_email E self text s = (Ok [], s).
Proof. destruct text; cbn; [discriminate | reflexivity ..]. Qed.

(** ** numpy *)

Section Numpy.

Lemma lookup_map {A B} (f : A -> B) (l : list A) (i : nat) :
  map f l !! i = f <$> (l !! i).
Proof.
  revert i. induction l as [|x l IH]; intros [|i]; cbn; auto.
Qed.

Lemma argmax_scan_lt l : forall mp best i,
  (best < i)%nat -> (np.argmax_scan mp best i l < i + length l)%nat.
Proof.
  induction l as [|x l IH]; intros mp best i Hb; cbn.
  - lia.
  - destruct (negb (x <=? mp)%float).
    + destruct (F64.is_nan x); [lia|].
      specialize (IH x i (S i)). lia.
    + specialize (IH mp best (S i)). lia.
Qed.

Lemma argmax_idx_lt row :
  row <> [] -> (np.argmax_idx row < length row)%nat.
Proof.
  destruct row as [|x l]; [congruence|]. intros _. cbn.
  destruct (F64.is_nan x); [lia|].
  pose proof (argmax_scan_lt l x 0%nat 1%nat). lia.
Qed.

Lemma argmax_scan_first_max l : forall pre mp best,
  Forall (fun p => F64.is_nan p = false) (pre ++ l) ->
  pre !! best = Some mp ->
  (forall j pj, pre !! j = Some pj -> (pj <=? mp)%float = true) ->
  (forall j pj, (j < best)%nat -> pre !! j = Some pj ->
     (pj <? mp)%float = true) ->
  first_max (pre ++ l) (np.argmax_scan mp best (length pre) l).
Proof.
  induction l as [|x l IH]; intros pre mp best Hnan Hbest Hle Hlt; cbn.
  - rewrite app_nil_r. exists mp. auto.
  - assert (Hx : F64.is_nan x = false).
    { rewrite Forall_app, Forall_cons in Hnan. tauto. }
    assert (Hmp : F64.is_nan mp = false).
    { rewrite Forall_app, Forall_forall in Hnan. destruct Hnan as [Hpre _].
      apply Hpre. apply list_elem_of_lookup. eauto. }
    assert (Hlen : length (pre ++ [x]) = S (length pre)).
    { rewrite length_app. cbn. lia. }
    replace (pre ++ x :: l) with ((pre ++ [x]) ++ l) in *
      by (rewrite <- app_assoc; reflexivity).
    rewrite <- Hlen.
    destruct (x <=? mp)%float eqn:Hcmp; cbn.
    + apply IH; auto.
      * rewrite lookup_app_l; [exact Hbest|].
        apply lookup_lt_Some in Hbest. exact Hbest.
      * intros j pj Hj. apply lookup_snoc_Some in Hj as [[_ Hj]|[_ <-]]; eauto.
      * intros j pj Hjb Hj.
        apply lookup_snoc_Some in Hj as [[_ Hj]|[-> <-]]; eauto.
        apply lookup_lt_Some in Hbest. lia.
    + rewrite Hx.
      assert (Hgt : (mp <? x)%float = true) by (apply f64_not_leb_ltb; auto).
      apply IH; auto.
      * rewrite lookup_app_r by lia. rewrite Nat.sub_diag. reflexivity.
      * intros j pj Hj. apply lookup_snoc_Some in Hj as [[_ Hj]|[_ <-]].
        -- eapply f64_leb_trans; [eapply Hle; eauto|].
           apply f64_ltb_leb, Hgt.
        -- apply f64_leb_refl, Hx.
      * intros j pj Hjb Hj.
        apply lookup_snoc_Some in Hj as [[_ Hj]|[-> _]]; [|lia].
        eapply f64_leb_ltb_trans; [eapply Hle; eauto | exact Hgt].
Qed.

Lemma argmax_idx_first_max row :
  row <> [] -> Forall (fun p => F64.is_nan p = false) row ->
  first_max row (np.argmax_idx row).
Proof.
  destruct row as [|x l]; [congruence|]. intros _ Hnan. cbn.
  assert (Hx : F64.is_nan x = false) by (inversion Hnan; auto).
  rewrite Hx.
  apply (argmax_scan_first_max l [x] x 0%nat); auto.
  - intros [|j] pj Hj.
    + injection Hj as <-. apply f64_leb_refl, Hx.
    + apply lookup_lt_Some in Hj. cbn in Hj. lia.
  - intros j pj Hj. lia.
Qed.

End Numpy.

(** ** Lines 149-156: the row of the first sample *)

Section Fallback.

Context {St : Type}.

Lemma where_eq0_ge v : forall i r, r ∈ np.where_eq0 i v -> (i <= r)%nat.
Proof.
  induction v as [|x v IH]; intros i r; cbn.
  - intros H. inversion H.
  - destruct (x =? 0).
    + rewrite elem_of_cons. intros [->|H]; [lia|]. apply IH in H. lia.
    + intros H. apply IH in H. lia.
Qed.

Lemma setitem2_Ok (m : list (list Z)) r c v (s : St) m' s' :
  np.setitem2 m r c v s = (Ok m', s') ->
  s' = s /\ exists row, m !! r = Some row /\ (c < length row)%nat
            /\ m' = <[r := <[c := v]> row]> m.
Proof.
  unfold np.setitem2. destruct (m !! r) as [row|]; [|discriminate].
  destruct (decide (c < length row)%nat); [|discriminate].
  intros [= <- <-]. eauto.
Qed.

Lemma foldM_setitem2_other (pairs : list (nat * nat)) : forall m (s : St) m' s' r,
  foldM (fun m rc => np.setitem2 m (fst rc) (snd rc) 1) m pairs s
  = (Ok m', s') ->
  (forall rc, rc ∈ pairs -> fst rc <> r) ->
  m' !! r = m !! r.
Proof.
  induction pairs as [|[r0 c0] pairs IH]; intros m s m' s' r; cbn.
  - intros [= <- _] _. reflexivity.
  - intros H Hne. apply bind_Ok in H as (m1 & s1 & H1 & H2).
    apply setitem2_Ok in H1 as (-> & row & Hrow & Hc & ->).
    rewrite (IH _ _ _ _ r H2).
    + apply list_lookup_insert_ne. apply (Hne (r0, c0)). left.
    + intros rc Hrc. apply Hne. right. exact Hrc.
Qed.

Lemma take_rows_cons_Ok {A} (m : list (list A)) r rows (s : St) sel s' :
  np.take_rows m (r :: rows) s = (Ok sel, s') ->
  exists row sel', m !! r = Some row /\ sel = row :: sel'
                   /\ np.take_rows m rows s = (Ok sel', s').
Proof.
  unfold np.take_rows. cbn. intros H.
  apply bind_Ok in H as (row & s1 & H1 & H).
  apply bind_Ok in H as (sel' & s2 & H2 & H).
  injection H as <- <-.
  destruct (m !! r) as [row'|]; [|discriminate].
  injection H1 as <- <-. eauto.
Qed.

Lemma argmax_axis1_cons_Ok row sel (s : St) top s' :
  np.argmax_axis1 (row :: sel) s = (Ok top, s') ->
  exists top', row <> [] /\ top = np.argmax_idx row :: top'.
Proof.
  unfold np.argmax_axis1. cbn. intros H.
  apply bind_Ok in H as (c & s1 & H1 & H).
  apply bind_Ok in H as (top' & s2 & H2 & H).
  injection H as <- <-.
  exists top'. destruct row; [discriminate|].
  injection H1 as <- <-. split; [discriminate | reflexivity].
Qed.

(** The row of the first sample after the fallback: the thresholded row,
    with the label of the largest probability set when its sum is zero;
    that row of probabilities is then not empty. *)
Lemma ensure_one_label_row0 (p0 : list float) P (b0 : list Z) B (s : St) R s' :
  ensure_one_label (p0 :: P) (b0 :: B) s = (Ok R, s') ->
  if fold_right Z.add 0 b0 =? 0
  then p0 <> [] /\ (np.argmax_idx p0 < length b0)%nat
       /\ R !! 0%nat = Some (<[np.argmax_idx p0 := 1]> b0)
  else R !! 0%nat = Some b0.
Proof.
  unfold ensure_one_label. cbn [np.sum_axis1 map np.where_eq0].
  destruct (fold_right Z.add 0 b0 =? 0) eqn:Hsum.
  - cbn [length]. destruct (decide _) as [_|Hn]; [|lia].
    intros H.
    apply bind_Ok in H as (sel & s1 & Hsel & H).
    apply bind_Ok in H as (top & s2 & Htop & H).
    apply take_rows_cons_Ok in Hsel as (row & sel' & Hrow & -> & Hsel).
    cbn in Hrow. injection Hrow as <-.
    apply argmax_axis1_cons_Ok in Htop as (top' & Hne & ->).
    cbn [zip zip_with foldM] in H.
    apply bind_Ok in H as (m1 & s3 & H1 & H).
    apply setitem2_Ok in H1 as (-> & row & Hrow & Hc & ->).
    cbn in Hrow. injection Hrow as <-. cbn [fst snd] in *.
    split; [exact Hne|]. split; [exact Hc|].
    rewrite (foldM_setitem2_other _ _ _ _ _ 0%nat H); [reflexivity|].
    intros [r c] Hrc. apply elem_of_zip_l in Hrc.
    apply where_eq0_ge in Hrc. cbn. lia.
  - destruct (decide _).
    + intros H.
      apply bind_Ok in H as (sel & s1 & Hsel & H).
      apply bind_Ok in H as (top & s2 & Htop & H).
      rewrite (foldM_setitem2_other _ _ _ _ _ 0%nat H); [reflexivity|].
      intros [r c] Hrc. apply elem_of_zip_l in Hrc.
      apply where_eq0_ge in Hrc. cbn. lia.
    + intros [= <- _]. reflexivity.
Qed.

(** A matrix of one row: the fallback returns. *)
Lemma ensure_one_label_single (p0 : list float) (b0 : list Z) :
  length b0 = length p0 -> p0 <> [] ->
  pure_of (St := St) (ensure_one_label [p0] [b0])
    (Ok [if fold_right Z.add 0 b0 =? 0
         then <[np.argmax_idx p0 := 1]> b0 else b0]).
Proof.
  intros Hlen Hne s. unfold ensure_one_label.
  cbn [np.sum_axis1 map np.where_eq0].
  destruct (fold_right Z.add 0 b0 =? 0); [|reflexivity].
  cbn [length]. destruct (decide _) as [_|Hn]; [|lia].
  assert (Hc : (np.argmax_idx p0 < length b0)%nat).
  { rewrite Hlen. apply argmax_idx_lt, Hne. }
  destruct p0 as [|x p0']; [congruence|].
  erewrite bind_run_Ok by reflexivity.
  erewrite bind_run_Ok by reflexivity.
  cbn [zip zip_with foldM fst snd].
  unfold bind, np.setitem2. cbn [lookup list_lookup].
  destruct (decide _) as [_|Hn]; [reflexivity | contradiction].
Qed.

End Fallback.

(** ** Lines 158-161: from a row of 0 and 1 to the names *)

Section Labels.

Context {St : Type}.

Lemma MULTILABEL_CLASSES_NoDup : NoDup MULTILABEL_CLASSES.
Proof.
  unfold MULTILABEL_CLASSES.
  repeat (apply NoDup_cons_2;
          [rewrite ?elem_of_cons, elem_of_nil; intuition discriminate|]).
  apply NoDup_nil_2.
Qed.

Lemma getitem_Ok {A} (l : list A) i (s : St) a s' :
  getitem l i s = (Ok a, s') -> s' = s /\ l !! i = Some a.
Proof.
  unfold getitem. destruct (l !! i); [|discriminate].
  intros [= <- <-]. auto.
Qed.

Lemma getitem0_Ok {A} (a : list A) (s : St) x s' :
  np.getitem0 a s = (Ok x, s') -> s' = s /\ a !! 0%nat = Some x.
Proof.
  unfold np.getitem0. destruct (a !! 0%nat); [|discriminate].
  intros [= <- <-]. auto.
Qed.

Lemma sublist_drop_S {A} (l k : list A) i :
  sublist k (drop (S i) l) -> sublist k (drop i l).
Proof.
  intros H. destruct (l !! i) as [x|] eqn:Hx.
  - rewrite (drop_S _ _ _ Hx). apply sublist_cons, H.
  - apply lookup_ge_None in Hx.
    rewrite drop_ge in H by lia. rewrite drop_ge by lia. exact H.
Qed.

(** The names come out in the order of the schema. *)
Lemma labels_of_row_sublist row : forall i (s : St) ls s',
  labels_of_row i row s = (Ok ls, s') ->
  sublist ls (drop i MULTILABEL_CLASSES).
Proof.
  induction row as [|v row IH]; intros i s ls s'; cbn.
  - intros [= <- _]. apply sublist_nil_l.
  - destruct (v =? 1).
    + intros H.
      apply bind_Ok in H as (name & s1 & H1 & H).
      apply bind_Ok in H as (rest & s2 & H2 & H).
      injection H as <- <-.
      apply getitem_Ok in H1 as [-> Hname].
      rewrite (drop_S _ _ _ Hname). apply sublist_skip. eauto.
    + intros H. apply sublist_drop_S. eauto.
Qed.

(** A 1 in the row puts its name among the labels. *)
Lemma labels_of_row_elem row : forall i (s : St) ls s' j,
  labels_of_row i row s = (Ok ls, s') ->
  row !! j = Some 1 ->
  exists name, MULTILABEL_CLASSES !! (i + j)%nat = Some name /\ name ∈ ls.
Proof.
  induction row as [|v row IH]; intros i s ls s' j; cbn.
  - intros _ Hj. discriminate.
  - destruct (v =? 1) eqn:Hv.
    + intros H Hj.
      apply bind_Ok in H as (name & s1 & H1 & H).
      apply bind_Ok in H as (rest & s2 & H2 & H).
      injection H as <- <-.
      apply getitem_Ok in H1 as [-> Hname].
      destruct j as [|j].
      * exists name. rewrite Nat.add_0_r. split; [exact Hname | left].
      * destruct (IH _ _ _ _ j H2 Hj) as (n & Hn & Hin).
        exists n. rewrite Nat.add_succ_r. split; [exact Hn | right; exact Hin].
    + intros H Hj. destruct j as [|j].
      * injection Hj as ->. discriminate.
      * destruct (IH _ _ _ _ j H Hj) as (n & Hn & Hin).
        exists n. rewrite Nat.add_succ_r. auto.
Qed.

(** Within the schema, the comprehension returns. *)
Lemma labels_of_row_total row : forall i,
  (i + length row <= length MULTILABEL_CLASSES)%nat ->
  exists ls, pure_of (St := St) (labels_of_row i row) (Ok ls).
Proof.
  induction row as [|v row IH]; intros i Hlen; cbn in *.
  - exists []. apply pure_ret.
  - destruct (IH (S i)) as [ls Hls]; [lia|].
    destruct (v =? 1); [|eauto].
    destruct (lookup_lt_is_Some_2 MULTILABEL_CLASSES i) as [name Hname];
      [cbn; lia|].
    exists (name :: ls). intros s.
    unfold bind, getitem. rewrite Hname. cbn. rewrite Hls. reflexivity.
Qed.

Lemma labels_of_row_zeros n : forall i,
  pure_of (St := St) (labels_of_row i (replicate n 0)) (Ok []).
Proof.
  induction n as [|n IH]; intros i; cbn; [apply pure_ret | apply IH].
Qed.

(** A row with a single 1: the one name. *)
Lemma labels_of_row_one_hot n : forall i c name,
  (c < n)%nat -> MULTILABEL_CLASSES !! (i + c)%nat = Some name ->
  pure_of (St := St) (labels_of_row i (<[c := 1]> (replicate n 0)))
    (Ok [name]).
Proof.
  induction n as [|n IH]; intros i c name Hc Hname; [lia|].
  destruct c as [|c]; cbn.
  - rewrite Nat.add_0_r in Hname. intros s.
    unfold bind, getitem. rewrite Hname. cbn.
    rewrite labels_of_row_zeros. reflexivity.
  - apply IH; [lia|].
    replace (S i + c)%nat with (i + S c)%nat by lia. exact Hname.
Qed.

End Labels.

(** ** Lines 145-161: thresholding and fallback *)

Section Thresholding.

Context {St : Type}.

Lemma thresholded_length row : length (thresholded row) = length row.
Proof. apply length_map. Qed.

Lemma thresholded_lookup row i :
  thresholded row !! i
  = (fun p => if F64.geb p THRESHOLD then 1 else 0) <$> (row !! i).
Proof. apply lookup_map. Qed.

(** A thresholded row whose sum is not zero holds a 1. *)
Lemma thresholded_sum_nonzero row :
  fold_right Z.add 0 (thresholded row) <> 0 ->
  exists j, thresholded row !! j = Some 1.
Proof.
  induction row as [|p row IH]; [cbn; congruence|].
  change (thresholded (p :: row))
    with ((if F64.geb p THRESHOLD then 1 else 0) :: thresholded row).
  cbn [fold_right]. destruct (F64.geb p THRESHOLD).
  - intros _. exists 0%nat. reflexivity.
  - intros H. destruct IH as [j Hj]; [lia|]. exists (S j). exact Hj.
Qed.

(** With every probability below the threshold the row is all zeros. *)
Lemma thresholded_all_below row :
  Forall (fun p => F64.geb p THRESHOLD = false) row ->
  thresholded row = replicate (length row) 0.
Proof.
  induction 1 as [|p row Hp _ IH]; [reflexivity|].
  change (thresholded (p :: row))
    with ((if F64.geb p THRESHOLD then 1 else 0) :: thresholded row).
  rewrite Hp, IH. reflexivity.
Qed.

Lemma sum_replicate_0 n : fold_right Z.add 0 (replicate n 0) = 0.
Proof. induction n; cbn; lia. Qed.

(** What [predicted_labels] has computed when it returns: the row of the
    first sample, thresholded and completed by the fallback, then read
    off against the schema. *)
Lemma predicted_labels_Ok P (s : St) ls s' :
  predicted_labels P s = (Ok ls, s') ->
  exists p0 P' row,
    P = p0 :: P'
    /\ (if fold_right Z.add 0 (thresholded p0) =? 0
        then p0 <> [] /\ (np.argmax_idx p0 < length p0)%nat
             /\ row = <[np.argmax_idx p0 := 1]> (thresholded p0)
        else row = thresholded p0)
    /\ labels_of_row 0 row s = (Ok ls, s').
Proof.
  unfold predicted_labels. intros H.
  apply bind_Ok in H as (R & s1 & HR & H).
  apply bind_Ok in H as (row & s2 & Hrow & H).
  destruct (is_pure_state _ _ _ _ (is_pure_ensure_one_label P _) HR) as [-> _].
  apply getitem0_Ok in Hrow as [-> Hrow].
  destruct P as [|p0 P'].
  - cbn in HR. injection HR as <-. discriminate.
  - exists p0, P', row. split; [reflexivity|]. split; [|exact H].
    cbn [np.ge_astype_int map] in HR.
    apply ensure_one_label_row0 in HR.
    change (map _ p0) with (thresholded p0) in HR.
    destruct (fold_right Z.add 0 (thresholded p0) =? 0).
    + destruct HR as (Hne & Hc & HR). rewrite thresholded_length in Hc.
      rewrite HR in Hrow. injection Hrow as <-. auto.
    + rewrite HR in Hrow. injection Hrow as <-. reflexivity.
Qed.

(** The labels of one row of ten probabilities. *)
Lemma predicted_labels_single row (s : St) :
  row <> [] -> (length row <= length MULTILABEL_CLASSES)%nat ->
  exists ls,
    predicted_labels [row] s = (Ok ls, s)
    /\ labels_of_row 0
         (if fold_right Z.add 0 (thresholded row) =? 0
          then <[np.argmax_idx row := 1]> (thresholded row)
          else thresholded row) s = (Ok ls, s).
Proof.
  intros Hne Hlen.
  set (row' := if fold_right Z.add 0 (thresholded row) =? 0
               then <[np.argmax_idx row := 1]> (thresholded row)
               else thresholded row).
  assert (Hlen' : length row' = length row).
  { unfold row'. destruct (_ =? _);
      rewrite ?length_insert; apply thresholded_length. }
  destruct (labels_of_row_total (St := St) row' 0) as [ls Hls]; [lia|].
  exists ls. split; [|apply Hls].
  unfold predicted_labels. cbn [np.ge_astype_int map].
  change (map _ row) with (thresholded row).
  unfold bind.
  rewrite (ensure_one_label_single row (thresholded row)
             (thresholded_length row) Hne s).
  cbn. apply Hls.
Qed.

End Thresholding.

(** ** The result of [classify] *)

Section Classify.

Variable E : Env.

(** A call of [classify] that returns went one of two ways. *)
Lemma classify_Ok self text log r log' :
  classify E self text log = (Ok r, log') ->
  r = {| primary_classification := "Spam"; detailed_labels := [] |}
  \/ exists P s s',
       @predicted_labels (list event) P s = (Ok (detailed_labels r), s')
       /\ primary_classification r = "No-Spam"%string.
Proof.
  unfold classify. intros H.
  apply bind_Ok in H as (toks & s1 & _ & H).
  apply bind_Ok in H as (z & s2 & _ & H).
  destruct (z =? 1).
  - injection H as <- _. left. reflexivity.
  - apply bind_Ok in H as (P & s3 & _ & H).
    apply bind_Ok in H as (ls & s4 & Hls & H).
    injection H as <- _. right. exists P, s3, s4. auto.
Qed.

(** When the spam stage answers something other than 1, the result is
    "No-Spam" with the labels that [predicted_labels] reads off the
    matrix of the topic stage. *)
Lemma classify_No_Spam self text log toks z P log1 log2 :
  _preprocess_email E self text log = (Ok toks, log) ->
  spam_stage E self toks log = (Ok z, log1) -> z <> 1 ->
  topic_stage E self toks log1 = (Ok P, log2) ->
  classify E self text log
  = bind (predicted_labels P)
      (fun ls => ret {| primary_classification := "No-Spam";
                        detailed_labels := ls |}) log2.
Proof.
  intros Hp Hs Hz Ht. unfold classify.
  rewrite (bind_run_Ok _ _ _ _ _ Hp), (bind_run_Ok _ _ _ _ _ Hs).
  destruct (Z.eqb_spec z 1) as [->|_]; [congruence|].
  rewrite (bind_run_Ok _ _ _ _ _ Ht). reflexivity.
Qed.

End Classify.

(** The labels that [predicted_labels] returns are never empty. *)
Lemma predicted_labels_nonempty {St} P (s : St) ls s' :
  predicted_labels P s = (Ok ls, s') -> ls <> [].
Proof.
  intros H. apply predicted_labels_Ok in H as (p0 & P' & row & -> & Hrow & H).
  assert (Hone : exists j, row !! j = Some 1).
  { destruct (fold_right Z.add 0 (thresholded p0) =? 0) eqn:Hsum.
    - destruct Hrow as (_ & Hc & ->). exists (np.argmax_idx p0).
      apply list_lookup_insert_eq. rewrite thresholded_length. exact Hc.
    - subst row. apply thresholded_sum_nonzero.
      apply Z.eqb_neq, Hsum. }
  destruct Hone as [j Hj].
  destruct (labels_of_row_elem _ _ _ _ _ _ H Hj) as (name & _ & Hin).
  intros ->. inversion Hin.
Qed.

(** [classify] returns: when the preprocessing and the two stages return
    and the topic model gives one row of ten probabilities, the result is
    "No-Spam" with the labels of that row. *)
Lemma classify_returns_No_Spam (E : Env) (self : instance E) text log toks z
    row log1 log2 :
  _preprocess_email E self text log = (Ok toks, log) ->
  spam_stage E self toks log = (Ok z, log1) -> z <> 1 ->
  topic_stage E self toks log1 = (Ok [row], log2) ->
  length row = length MULTILABEL_CLASSES ->
  exists ls,
    classify E self text log
    = (Ok {| primary_classification := "No-Spam"; detailed_labels := ls |},
       log2)
    /\ predicted_labels [row] log2 = (Ok ls, log2).
Proof.
  intros Hp Hs Hz Ht Hlen.
  assert (Hne : row <> []) by (intros ->; discriminate).
  destruct (predicted_labels_single row log2 Hne) as (ls & Hrun & _); [lia|].
  exists ls. split; [|exact Hrun].
  rewrite (classify_No_Spam E _ _ _ _ _ _ _ _ Hp Hs Hz Ht).
  unfold bind. rewrite Hrun. reflexivity.
Qed.

(** C1. In a result of [classify], [detailed_labels] is empty exactly when
    [primary_classification] is "Spam": a "No-Spam" result has at least
    one label. *)
Theorem classify_labels_empty_iff_spam (E : Env) (self : instance E)
    (text : py_value) (log : list event) (r : ClassificationResult)
    (log' : list event) :
  classify E self text log = (Ok r, log') ->
  detailed_labels r = [] <-> primary_classification r = "Spam"%string.
Proof.
  intros H. apply classify_Ok in H as [->|(P & s & s' & Hls & Hprim)].
  - cbn. tauto.
  - rewrite Hprim. apply predicted_labels_nonempty in Hls.
    split; [tauto | discriminate].
Qed.

(** C10. The labels of a result of [classify] are names of the schema,
    without repetition, in the order of [MULTILABEL_CLASSES]. *)
Theorem classify_labels_in_schema_order (E : Env) (self : instance E)
    (text : py_value) (log : list event) (r : ClassificationResult)
    (log' : list event) :
  classify E self text log = (Ok r, log') ->
  primary_classification r = "No-Spam"%string ->
  NoDup (detailed_labels r)
  /\ (forall name, name ∈ detailed_labels r -> name ∈ MULTILABEL_CLASSES)
  /\ sublist (detailed_labels r) MULTILABEL_CLASSES.
Proof.
  intros H Hprim.
  assert (Hsub : sublist (detailed_labels r) MULTILABEL_CLASSES).
  { apply classify_Ok in H as [->|(P & s & s' & Hls & _)];
      [discriminate|].
    apply predicted_labels_Ok in Hls as (p0 & P' & row & _ & _ & Hls).
    apply labels_of_row_sublist in Hls. exact Hls. }
  split; [|split].
  - eapply sublist_NoDup; [apply MULTILABEL_CLASSES_NoDup | exact Hsub].
  - intros name Hin. eapply elem_of_sublist; eassumption.
  - exact Hsub.
Qed.

(** C2. The threshold is inclusive: in a row of ten probabilities, the
    category whose probability is exactly [THRESHOLD] (0.30) is among the
    labels. *)
Theorem threshold_inclusive (St : Type) (row : list float) (i : nat)
    (s : St) :
  length row = length MULTILABEL_CLASSES ->
  row !! i = Some THRESHOLD ->
  exists ls name,
    predicted_labels [row] s = (Ok ls, s)
    /\ MULTILABEL_CLASSES !! i = Some name
    /\ name ∈ ls.
Proof.
  intros Hlen Hi.
  assert (Hne : row <> []) by (intros ->; discriminate).
  destruct (predicted_labels_single row s Hne) as (ls & Hrun & Hls); [lia|].
  assert (Hthr : thresholded row !! i = Some 1).
  { rewrite thresholded_lookup, Hi. reflexivity. }
  assert (Hrow : (if fold_right Z.add 0 (thresholded row) =? 0
                  then <[np.argmax_idx row := 1]> (thresholded row)
                  else thresholded row) !! i = Some 1).
  { destruct (_ =? _); [|exact Hthr].
    destruct (decide (np.argmax_idx row = i)) as [<-|Hn].
    - apply list_lookup_insert_eq. rewrite thresholded_length.
      apply argmax_idx_lt, Hne.
    - rewrite list_lookup_insert_ne by exact Hn. exact Hthr. }
  destruct (labels_of_row_elem _ _ _ _ _ _ Hls Hrow) as (name & Hname & Hin).
  exists ls, name. auto.
Qed.

(** C3. The fallback: when no probability of a row of ten reaches the
    threshold, the only label is the one of the largest probability, and
    of the first of them in the order of the schema when several are
    largest. *)
Theorem fallback_first_max (St : Type) (row : list float) (s : St) :
  length row = length MULTILABEL_CLASSES ->
  Forall (fun p => F64.is_nan p = false) row ->
  Forall (fun p => F64.geb p THRESHOLD = false) row ->
  exists c name,
    predicted_labels [row] s = (Ok [name], s)
    /\ MULTILABEL_CLASSES !! c = Some name
    /\ first_max row c.
Proof.
  intros Hlen Hnan Hbelow.
  assert (Hne : row <> []) by (intros ->; discriminate).
  destruct (predicted_labels_single row s Hne) as (ls & Hrun & Hls); [lia|].
  rewrite (thresholded_all_below row Hbelow), sum_replicate_0 in Hls.
  cbn [Z.eqb] in Hls.
  pose proof (argmax_idx_lt row Hne) as Hc.
  destruct (lookup_lt_is_Some_2 MULTILABEL_CLASSES (np.argmax_idx row))
    as [name Hname]; [lia|].
  rewrite (labels_of_row_one_hot (length row) 0 (np.argmax_idx row) name Hc
             Hname s) in Hls.
  injection Hls as <-.
  exists (np.argmax_idx row), name. split; [exact Hrun|]. split; [exact Hname|].
  apply argmax_idx_first_max; assumption.
Qed.

(** ** [_preprocess_email] *)

Section Preprocess.

Variable E : Env.

Lemma filterM_stop_words {St} (self : instance E) sw (l : list pystr) :
  stop_words self = Some sw ->
  pure_of (St := St)
    (filterM (fun t => sw <- getattr "stop_words" (stop_words self) ;;
                       ret (bool_decide (kept sw t))) l)
    (Ok (filter (kept sw) l)).
Proof.
  intros Hsw s. induction l as [|t l IH]; [reflexivity|].
  cbn [filterM].
  erewrite bind_run_Ok
    by (unfold bind, getattr; rewrite Hsw; reflexivity).
  rewrite (bind_run_Ok _ _ _ _ _ IH). unfold ret.
  rewrite filter_cons. destruct (decide (kept sw t)) as [Hk|Hk].
  - rewrite (bool_decide_eq_true_2 _ Hk). reflexivity.
  - rewrite (bool_decide_eq_false_2 _ Hk). reflexivity.
Qed.

Lemma mapM_lemmatize_Ok {St} (self : instance E) (l : list pystr) :
  forall (s : St) ys s',
  mapM (fun t => _ <- getattr "lemmatizer" (lemmatizer self) ;;
                 lift (lemmatize E t)) l s = (Ok ys, s') ->
  Forall2 (fun t y => lemmatize E t = Ok y) l ys.
Proof.
  induction l as [|x l IH]; intros s ys s'; cbn [mapM].
  - intros [= <- _]. constructor.
  - intros H. apply bind_Ok in H as (y & s1 & H1 & H).
    apply bind_Ok in H as (ys' & s2 & H2 & H).
    injection H as <- _.
    apply bind_Ok in H1 as (u & s0 & _ & H1). injection H1 as H1 _.
    constructor; eauto.
Qed.

Lemma re_sub_other_space_chars text :
  Forall (fun c => keeps E c = true \/ c = 32%N) (re_sub_other_space E text).
Proof.
  unfold re_sub_other_space. induction text as [|c text IH]; cbn.
  - constructor.
  - constructor; [|exact IH]. destruct (keeps E c) eqn:Hc; auto.
Qed.

End Preprocess.

(** C4, as amended.  [_preprocess_email] is a function of its input and
    of the tokenizer, stop words and lemmatizer: it returns the same in
    every state and changes none.  On a [str], with the stop words [sw]
    that [__init__] has set, it returns, in order, the lemma of each token
    that line 114 keeps; the kept tokens are longer than 2 and are no stop
    words, and they are tokens of a text made of [a-z], [0-9] and white
    space only.  (Nothing is said of the length or case of a lemma, nor of
    whether it is a stop word.) *)
Theorem preprocess_tokens (E : Env) (St : Type) (self : instance E)
    (sw : gset pystr) (text : pystr) (s : St) (lemmas : list pystr)
    (s' : St) :
  stop_words self = Some sw ->
  _preprocess_email E self (PyStr text) s = (Ok lemmas, s') ->
  pure_of (St := St) (_preprocess_email E self (PyStr text)) (Ok lemmas)
  /\ exists tokens,
       let cleaned := re_sub_other_space E (str_lower E text) in
       Forall (fun c => keeps E c = true \/ c = 32%N) cleaned
       /\ word_tokenize E cleaned = Ok tokens
       /\ Forall (fun t => (t ∉ sw) /\ (2 < length t)%nat)
             (filter (kept sw) tokens)
       /\ Forall2 (fun t lemma => lemmatize E t = Ok lemma)
             (filter (kept sw) tokens) lemmas.
Proof.
  intros Hsw H.
  split.
  { eapply is_pure_state; [apply is_pure_preprocess | exact H]. }
  unfold _preprocess_email in H.
  apply bind_Ok in H as (tokens & s1 & Htok & H).
  apply bind_Ok in H as (kept_tokens & s2 & Hkept & H).
  apply bind_Ok in H as (ls & s3 & Hls & H).
  injection H as <- _.
  injection Htok as Htok _.
  rewrite (filterM_stop_words E self sw tokens Hsw s1) in Hkept.
  injection Hkept as <- _.
  exists tokens. cbn zeta.
  split; [apply re_sub_other_space_chars|].
  split; [exact Htok|].
  split.
  - apply Forall_forall. intros t Ht.
    apply list_elem_of_filter in Ht as [Hk _]. exact Hk.
  - eapply mapM_lemmatize_Ok. exact Hls.
Qed.

(** C4, as stated, fails: with a lemmatizer that detaches a final [s],
    "cans ads" yields the lemmas "can", a stop word, and "ad", of length
    2. *)
Lemma preprocess_lemma_not_ok :
  _preprocess_email (Demo.env Demo.all_files) Demo.loaded
    (PyStr (pystr_of "cans ads")) tt
  = (Ok [pystr_of "can"; pystr_of "ad"], tt)
  /\ ~ Forall (token_ok (Demo.env Demo.all_files)
                (list_to_set Demo.stop_list))
        [pystr_of "can"; pystr_of "ad"].
Proof.
  split; [vm_compute; reflexivity|].
  intros H. apply Forall_cons in H as [_ H].
  apply Forall_cons in H as [(_ & Hlen & _) _].
  cbn in Hlen. lia.
Qed.

(** ** [_load_pipeline_assets] and [new] *)

Section Loading.

Variable E : Env.

Lemma load_pickle_run self dir name :
  model_dir self = Some dir ->
  load_pickle E name self = (artifact E dir name, self).
Proof.
  intros Hdir. unfold load_pickle, bind, get, getattr, lift, artifact.
  rewrite Hdir. cbn. destruct (open_rb E _); reflexivity.
Qed.

(** The four artifacts are loaded in order; the first failure ends the
    loading, with the attributes assigned so far left in place. *)
Lemma load_pipeline_assets_run self dir :
  model_dir self = Some dir ->
  _load_pipeline_assets E self =
  match artifact E dir "spam_vectorizer.pkl" with
  | Raise e => (Raise (reraised e), self)
  | Ok o1 =>
    let self1 := set_spam_vec E o1 self in
    match artifact E dir "spam_model.pkl" with
    | Raise e => (Raise (reraised e), self1)
    | Ok o2 =>
      let self2 := set_spam_clf E o2 self1 in
      match artifact E dir "multilabel_vectorizer.pkl" with
      | Raise e => (Raise (reraised e), self2)
      | Ok o3 =>
        let self3 := set_ml_vec E o3 self2 in
        match artifact E dir "multilabel_model.pkl" with
        | Raise e => (Raise (reraised e), self3)
        | Ok o4 => (Ok tt, set_ml_clf E o4 self3)
        end
      end
    end
  end.
Proof.
  intros Hdir. unfold _load_pipeline_assets, try_except, bind, modify, reraised.
  erewrite load_pickle_run by exact Hdir.
  destruct (artifact E dir "spam_vectorizer.pkl") as [o1|e];
    [|cbn; destruct (decide _); reflexivity].
  erewrite load_pickle_run by exact Hdir.
  destruct (artifact E dir "spam_model.pkl") as [o2|e];
    [|cbn; destruct (decide _); reflexivity].
  erewrite load_pickle_run by exact Hdir.
  destruct (artifact E dir "multilabel_vectorizer.pkl") as [o3|e];
    [|cbn; destruct (decide _); reflexivity].
  erewrite load_pickle_run by exact Hdir.
  destruct (artifact E dir "multilabel_model.pkl") as [o4|e];
    [|cbn; destruct (decide _); reflexivity].
  reflexivity.
Qed.

Lemma artifact_absent dir name :
  fs E (os_path_join dir name) = Absent ->
  exists msg,
    artifact E dir name
    = Raise (Exn FileNotFoundError (Some (os_path_join dir name)) msg).
Proof.
  intros H. unfold artifact, open_rb. rewrite H. eauto.
Qed.

(** The first artifact that fails decides what the loading raises. *)
Lemma load_first_failure self dir k name e :
  model_dir self = Some dir ->
  ARTIFACTS !! k = Some name ->
  (forall j earlier, (j < k)%nat -> ARTIFACTS !! j = Some earlier ->
     exists o, artifact E dir earlier = Ok o) ->
  artifact E dir name = Raise e ->
  fst (_load_pipeline_assets E self) = Raise (reraised e).
Proof.
  intros Hdir Hk Hearlier Hart.
  rewrite (load_pipeline_assets_run self dir Hdir).
  destruct k as [|[|[|[|k]]]]; cbn in Hk; try discriminate;
    injection Hk as <-.
  - rewrite Hart. reflexivity.
  - destruct (Hearlier 0%nat _ ltac:(lia) eq_refl) as [o1 ->].
    cbn zeta. rewrite Hart. reflexivity.
  - destruct (Hearlier 0%nat _ ltac:(lia) eq_refl) as [o1 ->].
    destruct (Hearlier 1%nat _ ltac:(lia) eq_refl) as [o2 ->].
    cbn zeta. rewrite Hart. reflexivity.
  - destruct (Hearlier 0%nat _ ltac:(lia) eq_refl) as [o1 ->].
    destruct (Hearlier 1%nat _ ltac:(lia) eq_refl) as [o2 ->].
    destruct (Hearlier 2%nat _ ltac:(lia) eq_refl) as [o3 ->].
    cbn zeta. rewrite Hart. reflexivity.
Qed.





Lemma load_pipeline_assets_Ok self dir self' :
  model_dir self = Some dir ->
  _load_pipeline_assets E self = (Ok tt, self') ->
  exists o1 o2 o3 o4,
    artifact E dir "spam_vectorizer.pkl" = Ok o1
    /\ artifact E dir "spam_model.pkl" = Ok o2
    /\ artifact E dir "multilabel_vectorizer.pkl" = Ok o3
    /\ artifact E dir "multilabel_model.pkl" = Ok o4
    /\ spam_vec self' = Some o1 /\ spam_clf self' = Some o2
    /\ ml_vec self' = Some o3 /\ ml_clf self' = Some o4.
Proof.
  intros Hdir. rewrite (load_pipeline_assets_run self dir Hdir).
  destruct (artifact E dir "spam_vectorizer.pkl") as [o1|e1];
    [|discriminate].
  destruct (artifact E dir "spam_model.pkl") as [o2|e2]; [|discriminate].
  destruct (artifact E dir "multilabel_vectorizer.pkl") as [o3|e3];
    [|discriminate].
  destruct (artifact E dir "multilabel_model.pkl") as [o4|e4];
    [|discriminate].
  intros [= <-]. exists o1, o2, o3, o4. cbn. tauto.
Qed.

End Loading.



(** An instance that [new] returns has its four estimators: no instance
    with fewer is ever returned. *)
Lemma new_has_all_assets (E : Env) (dir : string) (c : instance E) :
  new E dir = Ok c ->
  is_Some (spam_vec c) /\ is_Some (spam_clf c)
  /\ is_Some (ml_vec c) /\ is_Some (ml_clf c).
Proof.
  unfold new, __init__, bind, modify, lift.
  destruct (stopwords_words E) as [ws|e]; [|discriminate].
  set (self := set_stop_words E _ _).
  destruct (_load_pipeline_assets E self) as [[[]|e] self'] eqn:Hload;
    [|discriminate].
  intros [= <-].
  destruct (load_pipeline_assets_Ok E self dir _ eq_refl Hload)
    as (o1 & o2 & o3 & o4 & _ & _ & _ & _ & -> & -> & -> & ->).
  repeat split; eauto.
Qed.

(** ** [interface.py] *)

Import interface.



(** ** The theorems at work in the small environment *)

Lemma classify_labels_empty_iff_spam_witness :
  exists r,
    fst (classify (Demo.env Demo.all_files) Demo.loaded
           (PyStr (pystr_of "")) []) = Ok r
    /\ (detailed_labels r = [] <-> primary_classification r = "Spam"%string).
Proof.
  eexists. split; [vm_compute; reflexivity|].
  eapply (classify_labels_empty_iff_spam (Demo.env Demo.all_files)
            Demo.loaded (PyStr (pystr_of "")) []).
  vm_compute. reflexivity.
Defined.

Lemma classify_labels_in_schema_order_witness :
  exists r,
    fst (classify (Demo.env Demo.all_files) Demo.loaded
           (PyStr (pystr_of "Please find the invoice attached")) []) = Ok r
    /\ detailed_labels r = ["Events & Invitations"; "Finance & Bills"]%string
    /\ sublist (detailed_labels r) MULTILABEL_CLASSES.
Proof.
  eexists. split; [vm_compute; reflexivity|]. split; [reflexivity|].
  eapply (classify_labels_in_schema_order (Demo.env Demo.all_files)
            Demo.loaded (PyStr (pystr_of "Please find the invoice attached"))
            []).
  - vm_compute. reflexivity.
  - reflexivity.
Defined.

Lemma threshold_inclusive_witness :
  exists ls name,
    predicted_labels [Demo.row_newsletter] tt = (Ok ls, tt)
    /\ MULTILABEL_CLASSES !! 6%nat = Some name
    /\ name ∈ ls.
Proof.
  apply (threshold_inclusive unit Demo.row_newsletter 6 tt); reflexivity.
Defined.

Lemma fallback_first_max_witness :
  exists c name,
    predicted_labels [Demo.row_other] tt = (Ok [name], tt)
    /\ MULTILABEL_CLASSES !! c = Some name
    /\ first_max Demo.row_other c.
Proof.
  apply (fallback_first_max unit Demo.row_other tt).
  - reflexivity.
  - repeat (constructor; [reflexivity|]). constructor.
  - repeat (constructor; [reflexivity|]). constructor.
Defined.

Lemma preprocess_tokens_witness :
  pure_of (St := unit)
    (_preprocess_email (Demo.env Demo.all_files) Demo.loaded
       (PyStr (pystr_of "cans ads")))
    (Ok [pystr_of "can"; pystr_of "ad"]).
Proof.
  apply (preprocess_tokens (Demo.env Demo.all_files) unit Demo.loaded
           (list_to_set Demo.stop_list) (pystr_of "cans ads") tt
           [pystr_of "can"; pystr_of "ad"] tt).
  - reflexivity.
  - vm_compute. reflexivity.
Defined.

Lemma preprocess_non_string_witness :
  _preprocess_email (Demo.env Demo.all_files) Demo.loaded (PyInt 42) tt
  = (Ok [], tt).
Proof.
  apply (preprocess_non_string (Demo.env Demo.all_files) unit Demo.loaded
           (PyInt 42) tt).
  reflexivity.
Defined.


Lemma classify_spam_short_circuit_witness :
  fst (classify (Demo.env Demo.all_files) Demo.loaded
         (PyStr (pystr_of
            "Your account has been hacked! Click this suspicious link now."))
         [])
  = Ok {| primary_classification := "Spam"; detailed_labels := [] |}.
Proof.
  destruct (classify_spam_short_circuit (Demo.env Demo.all_files) Demo.loaded
              (PyStr (pystr_of
                 "Your account has been hacked! Click this suspicious link now."))
              []
              (map pystr_of
                 ["account"; "hacked"; "click"; "suspicious"; "link"]%string))
    as [H _].
  - vm_compute. reflexivity.
  - vm_compute. reflexivity.
  - rewrite H. reflexivity.
Defined.


(** * Part III: further properties of the code *)

(** ** [classify]: the calls it makes *)

Lemma topic_stage_Ok (E : Env) (self : instance E) toks log P log' :
  topic_stage E self toks log = (Ok P, log') ->
  log' = log ++ [MlVecTransform [toks]; MlClfPredictProba].
Proof.
  unfold topic_stage, bind, getattr, call, ret, raise.
  destruct (ml_vec self); [|discriminate].
  destruct (transform E _ _); [|discriminate].
  destruct (ml_clf self); [|discriminate].
  destruct (predict_proba E _ _); [|discriminate].
  intros [= _ <-]. rewrite <- app_assoc. reflexivity.
Qed.

(** X1. A call of [classify] that returns "No-Spam" has preprocessed the
    text once and made exactly four calls on the estimators, in this
    order: the spam vectorizer and the spam model, then the topic
    vectorizer and the topic model; both vectorizers were given the same
    single document, the tokens of the preprocessing. *)
Theorem classify_No_Spam_calls (E : Env) (self : instance E)
    (text : py_value) (log : list event) (r : ClassificationResult)
    (log' : list event) :
  classify E self text log = (Ok r, log') ->
  primary_classification r = "No-Spam"%string ->
  exists toks,
    _preprocess_email E self text log = (Ok toks, log)
    /\ log' = log ++ [SpamVecTransform [toks]; SpamClfPredict;
                      MlVecTransform [toks]; MlClfPredictProba].
Proof.
  intros H Hprim. unfold classify in H.
  apply bind_Ok in H as (toks & s1 & Hp & H).
  destruct (is_pure_state _ _ _ _ (is_pure_preprocess E self text) Hp)
    as [-> _].
  apply bind_Ok in H as (z & s2 & Hs & H).
  pose proof (spam_stage_Ok E _ _ _ _ _ Hs) as ->.
  destruct (z =? 1).
  { injection H as <- _. discriminate Hprim. }
  apply bind_Ok in H as (P & s3 & Ht & H).
  pose proof (topic_stage_Ok E _ _ _ _ _ Ht) as ->.
  apply bind_Ok in H as (ls & s4 & Hls & H).
  destruct (is_pure_state _ _ _ _ (is_pure_predicted_labels P) Hls)
    as [-> _].
  injection H as _ <-. exists toks. split; [exact Hp|].
  rewrite <- app_assoc. reflexivity.
Qed.

Lemma classify_No_Spam_calls_witness :
  exists toks,
    _preprocess_email (Demo.env Demo.all_files) Demo.loaded
      (PyStr (pystr_of "Please find the invoice attached"))
      ([] : list event)
    = (Ok toks, [])
    /\ snd (classify (Demo.env Demo.all_files) Demo.loaded
              (PyStr (pystr_of "Please find the invoice attached")) [])
       = [SpamVecTransform [toks]; SpamClfPredict;
          MlVecTransform [toks]; MlClfPredictProba].
Proof.
  destruct (classify_No_Spam_calls (Demo.env Demo.all_files) Demo.loaded
              (PyStr (pystr_of "Please find the invoice attached")) []
              {| primary_classification := "No-Spam";
                 detailed_labels :=
                   ["Events & Invitations"; "Finance & Bills"]%string |}
              (snd (classify (Demo.env Demo.all_files) Demo.loaded
                      (PyStr (pystr_of "Please find the invoice attached"))
                      [])))
    as (toks & Hp & Hlog).
  - vm_compute. reflexivity.
  - reflexivity.
  - exists toks. split; [exact Hp | exact Hlog].
Defined.

(** ** Lines 145-161: the labels in full *)

Section LabelsInFull.

Context {St : Type}.

Lemma thresholded_cons p row :
  thresholded (p :: row)
  = (if F64.geb p THRESHOLD then 1 else 0) :: thresholded row.
Proof. reflexivity. Qed.

Lemma thresholded_sum_nonneg row : 0 <= fold_right Z.add 0 (thresholded row).
Proof.
  induction row as [|p row IH]; [cbn; lia|].
  rewrite thresholded_cons. cbn [fold_right].
  destruct (F64.geb p THRESHOLD); lia.
Qed.

Lemma thresholded_sum_pos row :
  Exists (fun p => F64.geb p THRESHOLD = true) row ->
  (fold_right Z.add 0 (thresholded row) =? 0) = false.
Proof.
  intros H. apply Z.eqb_neq.
  induction H as [p row Hp|p row _ IH]; rewrite thresholded_cons;
    cbn [fold_right].
  - rewrite Hp. pose proof (thresholded_sum_nonneg row). lia.
  - pose proof (thresholded_sum_nonneg row).
    destruct (F64.geb p THRESHOLD); lia.
Qed.

(** Read against the schema, a thresholded row gives the names of the
    probabilities that pass. *)
Lemma labels_of_row_thresholded row : forall i,
  (i + length row <= length MULTILABEL_CLASSES)%nat ->
  pure_of (St := St) (labels_of_row i (thresholded row))
    (Ok (passing (drop i MULTILABEL_CLASSES) row)).
Proof.
  induction row as [|p row IH]; intros i Hlen s.
  - cbn. destruct (drop i MULTILABEL_CLASSES); reflexivity.
  - cbn [length] in Hlen.
    destruct (lookup_lt_is_Some_2 MULTILABEL_CLASSES i) as [name Hname];
      [lia|].
    rewrite (drop_S _ _ _ Hname), thresholded_cons.
    cbn [passing labels_of_row].
    destruct (F64.geb p THRESHOLD); cbn [Z.eqb Pos.eqb].
    + unfold bind, getitem. rewrite Hname. cbn [ret].
      rewrite (IH (S i)) by lia. reflexivity.
    + apply IH. lia.
Qed.

(** A 1 at an index beyond the schema makes the comprehension raise
    [IndexError]. *)
Lemma labels_of_row_beyond row : forall i j,
  row !! j = Some 1 ->
  (length MULTILABEL_CLASSES <= i + j)%nat ->
  exists e,
    pure_of (St := St) (labels_of_row i row) (Raise e)
    /\ exn_cls e = IndexError.
Proof.
  induction row as [|v row IH]; intros i j Hj Hlen; [discriminate|].
  cbn [labels_of_row].
  destruct (v =? 1) eqn:Hv.
  - destruct (MULTILABEL_CLASSES !! i) as [name|] eqn:Hname.
    + destruct j as [|j].
      { apply lookup_lt_Some in Hname. lia. }
      destruct (IH (S i) j Hj) as (e & He & Hcls); [lia|].
      exists e. split; [|exact Hcls]. intros s.
      unfold bind, getitem. rewrite Hname. cbn [ret]. rewrite He. reflexivity.
    + eexists. split.
      * intros s. unfold bind, getitem. rewrite Hname. reflexivity.
      * reflexivity.
  - destruct j as [|j].
    { injection Hj as ->. discriminate. }
    apply (IH (S i) j Hj). lia.
Qed.

Lemma take_rows_valid {A} (m : list (list A)) rows :
  Forall (fun r => (r < length m)%nat) rows ->
  exists sel,
    pure_of (St := St) (np.take_rows m rows) (Ok sel)
    /\ Forall2 (fun r row => m !! r = Some row) rows sel.
Proof.
  induction 1 as [|r rows Hr _ (sel & Hsel & Hall)].
  - exists []. split; [intros s; reflexivity | constructor].
  - destruct (lookup_lt_is_Some_2 m r Hr) as [row Hrow].
    exists (row :: sel). split; [|constructor; assumption].
    intros s. unfold np.take_rows in *. cbn [mapM].
    unfold bind at 1. rewrite Hrow. cbn [ret].
    unfold bind at 1. rewrite Hsel. reflexivity.
Qed.

Lemma where_eq0_lt v : forall i r,
  r ∈ np.where_eq0 i v -> (r < i + length v)%nat.
Proof.
  induction v as [|x v IH]; intros i r; cbn.
  - intros H. inversion H.
  - destruct (x =? 0).
    + rewrite elem_of_cons. intros [->|H]; [lia|]. apply IH in H. lia.
    + intros H. apply IH in H. lia.
Qed.

End LabelsInFull.

(** X2. When some probability of a row of ten reaches the threshold, the
    labels are exactly the names of the probabilities that reach it, in
    the order of the schema: the fallback adds nothing. *)
Theorem predicted_labels_passing (St : Type) (row : list float) (s : St) :
  length row = length MULTILABEL_CLASSES ->
  Exists (fun p => F64.geb p THRESHOLD = true) row ->
  predicted_labels [row] s = (Ok (passing MULTILABEL_CLASSES row), s).
Proof.
  intros Hlen Hex.
  assert (Hne : row <> []) by (intros ->; discriminate).
  destruct (predicted_labels_single row s Hne) as (ls & Hrun & Hls); [lia|].
  rewrite (thresholded_sum_pos row Hex) in Hls.
  rewrite (labels_of_row_thresholded row 0) in Hls by (cbn [Nat.add]; lia).
  injection Hls as <-. exact Hrun.
Qed.

Lemma predicted_labels_passing_witness :
  predicted_labels [Demo.row_invoice] tt
  = (Ok ["Events & Invitations"; "Finance & Bills"]%string, tt).
Proof.
  apply (predicted_labels_passing unit Demo.row_invoice tt).
  - reflexivity.
  - do 2 apply Exists_cons_tl. apply Exists_cons_hd. reflexivity.
Defined.

(** X3. Labels are never read beyond the schema: when the row has more
    probabilities than the schema has names and one of those beyond
    reaches the threshold, [predicted_labels] raises [IndexError]. *)
Theorem predicted_labels_beyond_schema (St : Type) (row : list float)
    (j : nat) (p : float) (s : St) :
  row !! j = Some p ->
  F64.geb p THRESHOLD = true ->
  (length MULTILABEL_CLASSES <= j)%nat ->
  exists e,
    predicted_labels [row] s = (Raise e, s) /\ exn_cls e = IndexError.
Proof.
  intros Hj Hp Hlen.
  assert (Hne : row <> []) by (intros ->; discriminate).
  assert (Hex : Exists (fun p => F64.geb p THRESHOLD = true) row).
  { apply Exists_exists. exists p. split; [|exact Hp].
    apply list_elem_of_lookup. eauto. }
  assert (Hthr : thresholded row !! j = Some 1).
  { rewrite thresholded_lookup, Hj.
    cbv beta iota delta [fmap option_fmap option_map].
    rewrite Hp. reflexivity. }
  destruct (labels_of_row_beyond (St := St) _ 0 j Hthr) as (e & He & Hcls);
    [exact Hlen|].
  exists e. split; [|exact Hcls].
  unfold predicted_labels. cbn [np.ge_astype_int map].
  change (map _ row) with (thresholded row).
  unfold bind.
  rewrite (ensure_one_label_single row (thresholded row)
             (thresholded_length row) Hne s).
  rewrite (thresholded_sum_pos row Hex). cbn. apply He.
Qed.

Lemma predicted_labels_beyond_schema_witness :
  exists e,
    predicted_labels [Demo.row_other ++ [0.5%float]] tt = (Raise e, tt)
    /\ exn_cls e = IndexError.
Proof.
  apply (predicted_labels_beyond_schema unit (Demo.row_other ++ [0.5%float])
           10 0.5%float tt).
  - reflexivity.
  - reflexivity.
  - cbn. lia.
Defined.

Lemma bind_run_Raise {St A B} (m : M St A) (k : A -> M St B) s e s1 :
  m s = (Raise e, s1) -> bind m k s = (Raise e, s1).
Proof. unfold bind. intros ->. reflexivity. Qed.

(** X4. A matrix without rows makes [predicted_labels] raise
    [IndexError] (there is no first sample), and a matrix whose first row
    is empty makes it raise [ValueError] (the [argmax] of the fallback has
    nothing to choose from), whatever the other rows. *)
Theorem predicted_labels_degenerate (St : Type) (s : St) :
  (exists e,
     predicted_labels [] s = (Raise e, s) /\ exn_cls e = IndexError)
  /\ (forall P, exists e,
        predicted_labels ([] :: P) s = (Raise e, s)
        /\ exn_cls e = ValueError).
Proof.
  split.
  - eexists. split; reflexivity.
  - intros P.
    exists (Exn ValueError None "attempt to get argmax of an empty sequence").
    split; [|reflexivity].
    unfold predicted_labels. apply bind_run_Raise.
    unfold ensure_one_label.
    cbn [np.ge_astype_int map np.sum_axis1 fold_right np.where_eq0 Z.eqb].
    set (rows := np.where_eq0 1 _).
    cbn [length]. destruct (decide _) as [_|Hn]; [|lia].
    destruct (take_rows_valid (St := St) ([] :: P) (0%nat :: rows))
      as (sel & Hsel & Hall).
    { constructor; [cbn; lia|]. apply Forall_forall. intros r Hr.
      apply where_eq0_lt in Hr. rewrite !length_map in Hr. cbn. lia. }
    inversion Hall as [|r0 row0 rs sel' Hrow0 _]; subst.
    injection Hrow0 as <-.
    rewrite (bind_run_Ok _ _ _ _ _ (Hsel s)).
    apply bind_run_Raise. reflexivity.
Qed.

(** X5. Only the row of the first sample counts: when [predicted_labels]
    returns on a matrix, it returns the same labels on that matrix's first
    row alone. *)
Theorem predicted_labels_first_row (St : Type) (row : list float)
    (P : list (list float)) (s : St) (ls : list string) (s' : St) :
  predicted_labels (row :: P) s = (Ok ls, s') ->
  predicted_labels [row] s = (Ok ls, s).
Proof.
  intros H.
  destruct (is_pure_state _ _ _ _ (is_pure_predicted_labels (row :: P)) H)
    as [-> _].
  apply predicted_labels_Ok in H as (p0 & P' & row' & Heq & Hrow & Hls).
  injection Heq as <- <-.
  assert (Hne : row <> []).
  { destruct (fold_right Z.add 0 (thresholded row) =? 0) eqn:Hsum.
    - apply Hrow.
    - intros ->. discriminate Hsum. }
  unfold predicted_labels. cbn [np.ge_astype_int map].
  change (map _ row) with (thresholded row).
  unfold bind.
  rewrite (ensure_one_label_single row (thresholded row)
             (thresholded_length row) Hne s).
  cbn [np.getitem0 lookup list_lookup ret].
  destruct (fold_right Z.add 0 (thresholded row) =? 0).
  - destruct Hrow as (_ & _ & ->). exact Hls.
  - subst row'. exact Hls.
Qed.

Lemma predicted_labels_first_row_witness :
  predicted_labels [Demo.row_newsletter] tt
  = (Ok ["Newsletters"%string], tt).
Proof.
  apply (predicted_labels_first_row unit Demo.row_newsletter
           [Demo.row_invoice; Demo.row_other] tt ["Newsletters"%string] tt).
  vm_compute. reflexivity.
Defined.

(** ** [classify] on other inputs *)

(** X6. A value that is not a [str] is classified as an e-mail without
    tokens: [classify] does on it what it does on any text that the
    preprocessing empties. *)
Theorem classify_non_string_as_empty (E : Env) (self : instance E)
    (value : py_value) (text : pystr) (log : list event) :
  isinstance_str value = false ->
  fst (_preprocess_email E self (PyStr text) log) = Ok [] ->
  classify E self value log = classify E self (PyStr text) log.
Proof.
  intros Hv Hp.
  destruct (_preprocess_email E self (PyStr text) log) as [r log0] eqn:Hpre.
  cbn [fst] in Hp. subst r.
  destruct (is_pure_state _ _ _ _ (is_pure_preprocess E self (PyStr text))
              Hpre) as [-> _].
  unfold classify. rewrite (bind_run_Ok _ _ _ _ _ Hpre).
  destruct value; try discriminate Hv; reflexivity.
Qed.

Lemma classify_non_string_as_empty_witness :
  classify (Demo.env Demo.all_files) Demo.loaded PyNone []
  = classify (Demo.env Demo.all_files) Demo.loaded
      (PyStr (pystr_of "!!! Can you ...")) [].
Proof.
  apply (classify_non_string_as_empty (Demo.env Demo.all_files) Demo.loaded
           PyNone (pystr_of "!!! Can you ...") []).
  - reflexivity.
  - vm_compute. reflexivity.
Defined.

(** X7. Only the label 1 means spam: whatever other label the spam model
    gives, with one row of ten probabilities from the topic model
    [classify] returns "No-Spam" with the labels that [predicted_labels]
    reads off that row. *)
Theorem classify_other_label_is_No_Spam (E : Env) (self : instance E)
    (text : py_value) (log : list event) (toks : list pystr) (z : Z)
    (row : list float) (log1 log2 : list event) :
  _preprocess_email E self text log = (Ok toks, log) ->
  spam_stage E self toks log = (Ok z, log1) ->
  z <> 1 ->
  topic_stage E self toks log1 = (Ok [row], log2) ->
  length row = length MULTILABEL_CLASSES ->
  exists ls,
    classify E self text log
    = (Ok {| primary_classification := "No-Spam"; detailed_labels := ls |},
       log2)
    /\ predicted_labels [row] log2 = (Ok ls, log2).
Proof.
  intros Hp Hs Hz Ht Hlen.
  exact (classify_returns_No_Spam E self text log toks z row log1 log2
           Hp Hs Hz Ht Hlen).
Qed.

Lemma classify_other_label_is_No_Spam_witness :
  exists ls,
    fst (classify (Demo.env Demo.all_files) Demo.loaded
           (PyStr (pystr_of "The monthly newsletter")) [])
    = Ok {| primary_classification := "No-Spam"; detailed_labels := ls |}.
Proof.
  destruct (classify_other_label_is_No_Spam (Demo.env Demo.all_files)
              Demo.loaded (PyStr (pystr_of "The monthly newsletter")) []
              (map pystr_of ["monthly"; "newsletter"]%string) 0
              Demo.row_newsletter
              [SpamVecTransform
                 [map pystr_of ["monthly"; "newsletter"]%string];
               SpamClfPredict]
              [SpamVecTransform
                 [map pystr_of ["monthly"; "newsletter"]%string];
               SpamClfPredict;
               MlVecTransform
                 [map pystr_of ["monthly"; "newsletter"]%string];
               MlClfPredictProba])
    as (ls & Hc & _).
  - vm_compute. reflexivity.
  - vm_compute. reflexivity.
  - discriminate.
  - vm_compute. reflexivity.
  - reflexivity.
  - exists ls. rewrite Hc. reflexivity.
Defined.

(** ** Construction and start-up *)

Section StartUp.

Variable E : Env.

(** The instance that [__init__] hands to [_load_pipeline_assets]. *)
Lemma new_run dir :
  new E dir =
  match stopwords_words E with
  | Raise e => Raise e
  | Ok words =>
      match _load_pipeline_assets E
              (set_stop_words E (list_to_set words)
                 (set_lemmatizer E tt (set_model_dir E dir (blank E)))) with
      | (Ok _, self) => Ok self
      | (Raise e, _) => Raise e
      end
  end.
Proof.
  unfold new, __init__, bind, modify, lift.
  destruct (stopwords_words E); reflexivity.
Qed.

Lemma new_first_failure dir words k name e :
  stopwords_words E = Ok words ->
  ARTIFACTS !! k = Some name ->
  (forall j earlier, (j < k)%nat -> ARTIFACTS !! j = Some earlier ->
     exists o, artifact E dir earlier = Ok o) ->
  artifact E dir name = Raise e ->
  new E dir = Raise (reraised e).
Proof.
  intros Hw Hk Hearlier Hart. rewrite new_run, Hw.
  pose proof (load_first_failure E
                (set_stop_words E (list_to_set words)
                   (set_lemmatizer E tt (set_model_dir E dir (blank E))))
                dir k name e eq_refl Hk Hearlier Hart) as H.
  destruct (_load_pipeline_assets E _) as [[u|e'] self']; cbn [fst] in H;
    [discriminate|].
  injection H as ->. reflexivity.
Qed.

End StartUp.

(** X8. When the stop words are available and the four artifacts open
    and unpickle, [EmailClassifier(dir)] returns the instance whose
    attributes are [dir], a lemmatizer, the set of the stop words and the
    four unpickled objects, each under its own attribute. *)
Theorem new_loads_everything (E : Env) (dir : string) (words : list pystr)
    (o1 o2 o3 o4 : Obj E) :
  stopwords_words E = Ok words ->
  artifact E dir "spam_vectorizer.pkl" = Ok o1 ->
  artifact E dir "spam_model.pkl" = Ok o2 ->
  artifact E dir "multilabel_vectorizer.pkl" = Ok o3 ->
  artifact E dir "multilabel_model.pkl" = Ok o4 ->
  new E dir
  = Ok (Build_instance E (Some dir) (Some tt) (Some (list_to_set words))
          (Some o1) (Some o2) (Some o3) (Some o4)).
Proof.
  intros Hw H1 H2 H3 H4. rewrite new_run, Hw.
  erewrite load_pipeline_assets_run by reflexivity.
  rewrite H1, H2, H3, H4. reflexivity.
Qed.

Lemma new_loads_everything_witness :
  new (Demo.env Demo.all_files) "model_assets" = Ok Demo.loaded.
Proof.
  apply (new_loads_everything (Demo.env Demo.all_files) "model_assets"
           Demo.stop_list Demo.SpamVec Demo.SpamClf Demo.TopicVec
           Demo.TopicClf); reflexivity.
Defined.

(** X9. Start-up with a missing artifact: when the stop words are
    available and the first artifact that fails to load is absent, the
    module is imported with [classifier = None]. *)
Theorem classifier_None_when_artifact_missing (E : Env)
    (words : list pystr) (k : nat) (name : string) :
  stopwords_words E = Ok words ->
  ARTIFACTS !! k = Some name ->
  (forall j earlier, (j < k)%nat -> ARTIFACTS !! j = Some earlier ->
     exists o, artifact E "model_assets" earlier = Ok o) ->
  fs E (os_path_join "model_assets" name) = Absent ->
  interface.classifier E = Ok None.
Proof.
  intros Hw Hk Hearlier Habs.
  destruct (artifact_absent E "model_assets" name Habs) as [msg Hart].
  unfold interface.classifier.
  rewrite (new_first_failure E _ _ _ _ _ Hw Hk Hearlier Hart).
  reflexivity.
Qed.

Lemma classifier_None_when_artifact_missing_witness :
  interface.classifier (Demo.env Demo.missing_files) = Ok None.
Proof.
  apply (classifier_None_when_artifact_missing (Demo.env Demo.missing_files)
           Demo.stop_list 1 "spam_model.pkl").
  - reflexivity.
  - reflexivity.
  - intros [|j] earlier Hj Hearlier; [|lia].
    injection Hearlier as <-. eexists. vm_compute. reflexivity.
  - reflexivity.
Defined.

(** X10. Start-up with an unreadable artifact: when the first artifact
    that fails to load fails with an exception that is no
    [FileNotFoundError] (a file that may not be read, a file that is no
    pickle), that exception leaves the module: the import fails and there
    is no [classifier], not even [None]. *)
Theorem classifier_import_fails_when_artifact_unreadable (E : Env)
    (words : list pystr) (k : nat) (name : string) (e : exn) :
  stopwords_words E = Ok words ->
  ARTIFACTS !! k = Some name ->
  (forall j earlier, (j < k)%nat -> ARTIFACTS !! j = Some earlier ->
     exists o, artifact E "model_assets" earlier = Ok o) ->
  artifact E "model_assets" name = Raise e ->
  exn_cls e <> FileNotFoundError ->
  interface.classifier E = Raise e.
Proof.
  intros Hw Hk Hearlier Hart Hcls.
  unfold interface.classifier.
  rewrite (new_first_failure E _ _ _ _ _ Hw Hk Hearlier Hart).
  assert (Hre : reraised e = e).
  { unfold reraised.
    destruct (decide (exn_cls e = FileNotFoundError)); [contradiction|].
    reflexivity. }
  rewrite Hre.
  destruct (decide (exn_cls e = FileNotFoundError));
    [contradiction | reflexivity].
Qed.

Lemma classifier_import_fails_when_artifact_unreadable_witness :
  interface.classifier (Demo.env Demo.corrupt_files)
  = Raise (Exn UnpicklingError None "invalid load key, 'x'.").
Proof.
  apply (classifier_import_fails_when_artifact_unreadable
           (Demo.env Demo.corrupt_files) Demo.stop_list 0
           "spam_vectorizer.pkl").
  - reflexivity.
  - reflexivity.
  - intros j earlier Hj. lia.
  - reflexivity.
  - discriminate.
Defined.

(** X11. [_load_pipeline_assets] passes on unchanged what is no
    [FileNotFoundError]: when the first artifact that fails to load fails
    with such an exception, that very exception is raised, with its own
    class, file name and message. *)
Theorem load_pipeline_assets_passes_other_errors (E : Env)
    (self : instance E) (dir : string) (k : nat) (name : string) (e : exn) :
  model_dir self = Some dir ->
  ARTIFACTS !! k = Some name ->
  (forall j earlier, (j < k)%nat -> ARTIFACTS !! j = Some earlier ->
     exists o, artifact E dir earlier = Ok o) ->
  artifact E dir name = Raise e ->
  exn_cls e <> FileNotFoundError ->
  fst (_load_pipeline_assets E self) = Raise e.
Proof.
  intros Hdir Hk Hearlier Hart Hcls.
  rewrite (load_first_failure E self dir k name e Hdir Hk Hearlier Hart).
  unfold reraised.
  destruct (decide (exn_cls e = FileNotFoundError)); [contradiction|].
  reflexivity.
Qed.

Lemma load_pipeline_assets_passes_other_errors_witness :
  fst (_load_pipeline_assets (Demo.env DemoFaults.denied_files)
         (set_model_dir _ "model_assets" (blank _)))
  = Raise (Exn PermissionError (Some "model_assets/multilabel_model.pkl"%string)
             "[Errno 13] Permission denied: 'model_assets/multilabel_model.pkl'").
Proof.
  apply (load_pipeline_assets_passes_other_errors
           (Demo.env DemoFaults.denied_files)
           (set_model_dir _ "model_assets" (blank _)) "model_assets" 3
           "multilabel_model.pkl").
  - reflexivity.
  - reflexivity.
  - intros [|[|[|j]]] earlier Hj Hearlier; [| | |lia];
      injection Hearlier as <-; eexists; vm_compute; reflexivity.
  - reflexivity.
  - discriminate.
Defined.

(** X12. The stop words come first: when [stopwords.words("english")]
    raises, [EmailClassifier(dir)] raises the same for every directory,
    whatever the files; and unless it is a [FileNotFoundError] the import
    of [interface.py] fails with it. *)
Theorem new_needs_stop_words (E : Env) (e : exn) :
  stopwords_words E = Raise e ->
  (forall dir, new E dir = Raise e)
  /\ (exn_cls e <> FileNotFoundError -> interface.classifier E = Raise e).
Proof.
  intros Hw.
  assert (Hnew : forall dir, new E dir = Raise e).
  { intros dir. rewrite new_run, Hw. reflexivity. }
  split; [exact Hnew|].
  intros Hcls. unfold interface.classifier. rewrite Hnew.
  destruct (decide (exn_cls e = FileNotFoundError));
    [contradiction | reflexivity].
Qed.

Lemma new_needs_stop_words_witness :
  interface.classifier DemoFaults.env_without_stopwords
  = Raise (DemoFaults.resource_not_found "stopwords").
Proof.
  apply (new_needs_stop_words DemoFaults.env_without_stopwords
           (DemoFaults.resource_not_found "stopwords")).
  - reflexivity.
  - discriminate.
Defined.

(** ** The handler with a classifier *)

(** X13. With a classifier in place the handler returns either the result
    of [classify], in which the labels are empty exactly for "Spam" and
    follow the schema, or the error object made of the exception that
    [classify] raised; it never returns the pair with a status. *)
Theorem classify_email_loaded (E : Env) (c : instance E)
    (email_text : pystr) (log : list event) :
  match fst (interface.classify_email E (Some c) email_text log) with
  | interface.Result r =>
      fst (classify E c (PyStr email_text) log) = Ok r
      /\ (detailed_labels r = []
          <-> primary_classification r = "Spam"%string)
      /\ sublist (detailed_labels r) MULTILABEL_CLASSES
  | interface.Error msg =>
      exists e,
        fst (classify E c (PyStr email_text) log) = Raise e
        /\ msg = ("An error occurred during classification: "
                    ++ exn_str e)%string
  | interface.ErrorWithStatus _ _ => False
  end.
Proof.
  unfold interface.classify_email.
  destruct (classify E c (PyStr email_text) log) as [[r|e] log'] eqn:H;
    cbn [fst].
  - split; [reflexivity|].
    apply classify_Ok in H as [->|(P & s & s' & Hls & Hprim)].
    + cbn. split; [tauto | apply sublist_nil_l].
    + rewrite Hprim. split.
      * apply predicted_labels_nonempty in Hls.
        split; [tauto | discriminate].
      * apply predicted_labels_Ok in Hls as (p0 & P' & row & _ & _ & Hls).
        apply labels_of_row_sublist in Hls. exact Hls.
  - exists e. split; reflexivity.
Qed.

(** X14. When the tokenizer raises (its data is not installed), a request
    to a loaded classifier is answered with the error object that carries
    the message of that exception, and no estimator has been called. *)
Theorem classify_email_tokenizer_error (E : Env) (c : instance E)
    (email_text : pystr) (e : exn) (log : list event) :
  word_tokenize E (re_sub_other_space E (str_lower E email_text)) = Raise e ->
  interface.classify_email E (Some c) email_text log
  = (interface.Error
       ("An error occurred during classification: " ++ exn_str e),
     log).
Proof.
  intros H.
  unfold interface.classify_email, classify, _preprocess_email, bind, lift.
  rewrite H. reflexivity.
Qed.

Lemma classify_email_tokenizer_error_witness :
  interface.classify_email DemoFaults.env_without_tokenizer
    (Some DemoFaults.loaded_without_tokenizer)
    (pystr_of "Please find the invoice attached") []
  = (interface.Error
       "An error occurred during classification: Resource punkt not found.",
     []).
Proof.
  apply (classify_email_tokenizer_error DemoFaults.env_without_tokenizer
           DemoFaults.loaded_without_tokenizer
           (pystr_of "Please find the invoice attached")
           (DemoFaults.resource_not_found "punkt") []).
  reflexivity.
Defined.
